(** * apollo-ica-helper: scripts/update_repo_json.py

    A shallow embedding of the release script that rewrites [repo.json],
    and the properties of its specification checked against it.

    The script is one Python function, [main], whose return value becomes
    the exit status of the process ([raise SystemExit(main())]).  The model
    follows it statement by statement:

    - the values [json.load] produces are the inductive type [json];
      objects are association lists in insertion order, as Python dicts are;
    - Python's dynamic operations ([.get], [x[0]], [len], truthiness, [==])
      are total functions into an error type whose failures are the
      exceptions Python raises;
    - [main] runs in a small monad that threads the process state (the file
      on disk and what was printed) and distinguishes falling through to
      the next statement, [return code] and an uncaught exception. *)

From Stdlib Require Import String Ascii ZArith List Bool Lia.
Import ListNotations.
Open Scope string_scope.
Open Scope Z_scope.

(** ** Strings

    A Python [str] is modelled by [string]; an [ascii] stands for the code
    point of the same number, so the model covers texts over code points
    0..255.  File encodings are below the model. *)

Definition nl : string := String "010"%char "".

(** [str.isspace] on one character, for the code points a [string] here
    can hold: TAB..CR, FS..US, SPACE, NEL and NBSP. *)
Definition py_isspace (c : ascii) : bool :=
  let n := nat_of_ascii c in
  (((9 <=? n) && (n <=? 13)) || ((28 <=? n) && (n <=? 32))
   || (n =? 133) || (n =? 160))%nat.

Fixpoint dropwhile {A} (p : A -> bool) (l : list A) : list A :=
  match l with
  | [] => []
  | x :: l' => if p x then dropwhile p l' else l
  end.

(** [s.strip()] *)
Definition strip (s : string) : string :=
  let front := dropwhile py_isspace (list_ascii_of_string s) in
  string_of_list_ascii (rev (dropwhile py_isspace (rev front))).

(** [sep.join(parts)] *)
Definition join (sep : string) (parts : list string) : string :=
  String.concat sep parts.

(** ** Dictionaries

    A dict is the list of its items in insertion order.  [d[k] = v] keeps
    the position of a key that is present and appends a new one. *)

Section Dict.
Context {A : Type}.

Fixpoint dict_get (k : string) (d : list (string * A)) : option A :=
  match d with
  | [] => None
  | (k', v) :: d' => if String.eqb k' k then Some v else dict_get k d'
  end.

Fixpoint dict_set (k : string) (v : A) (d : list (string * A))
  : list (string * A) :=
  match d with
  | [] => [(k, v)]
  | (k', v') :: d' =>
      if String.eqb k' k then (k, v) :: d' else (k', v') :: dict_set k v d'
  end.

Definition dict_keys (d : list (string * A)) : list string := map fst d.
End Dict.

(** ** Values *)

(** A Python float, as far as the script can observe one (truth value and
    comparison): not-a-number, an infinity, or the finite value
    [mant * 2 ^ expo]. *)
Inductive pyfloat : Type :=
| FNan
| FInf (negative : bool)
| FFin (mant expo : Z).

#[warnings="-register-all"]
Inductive json : Type :=
| JNull                                  (* None / null *)
| JBool (b : bool)
| JInt (n : Z)
| JFloat (f : pyfloat)
| JStr (s : string)
| JList (l : list json)
| JDict (d : list (string * json)).

(** An optional string ([str] or [None]) as a value. *)
Definition of_opt (o : option string) : json :=
  match o with
  | Some s => JStr s
  | None => JNull
  end.

(** [str(x)] for an optional string, as an f-string field formats it. *)
Definition format_str (o : option string) : string :=
  match o with
  | Some s => s
  | None => "None"
  end.

(** *** Truth values *)

Definition float_truthy (f : pyfloat) : bool :=
  match f with
  | FFin m _ => negb (m =? 0)
  | _ => true
  end.

(** [bool(v)] *)
Definition truthy (v : json) : bool :=
  match v with
  | JNull => false
  | JBool b => b
  | JInt n => negb (n =? 0)
  | JFloat f => float_truthy f
  | JStr s => negb (String.eqb s "")
  | JList l => match l with [] => false | _ => true end
  | JDict d => match d with [] => false | _ => true end
  end.

(** [a or b] *)
Definition py_or (a b : json) : json := if truthy a then a else b.

Definition truthy_str (o : option string) : bool := truthy (of_opt o).

(** [a or b] on optional strings *)
Definition str_or (a b : option string) : option string :=
  if truthy_str a then a else b.

(** *** Equality *)

(** The number a value denotes, for the values Python compares as numbers
    ([bool] is a subclass of [int]). *)
Definition as_number (v : json) : option pyfloat :=
  match v with
  | JBool b => Some (FFin (if b then 1 else 0) 0)
  | JInt n => Some (FFin n 0)
  | JFloat f => Some f
  | _ => None
  end.

Definition float_eq (a b : pyfloat) : bool :=
  match a, b with
  | FInf s, FInf t => Bool.eqb s t
  | FFin m e, FFin n f =>
      let low := Z.min e f in
      (m * 2 ^ (e - low) =? n * 2 ^ (f - low))
  | _, _ => false
  end.

(** [a == b].  Dicts compare as maps, whatever the order of their items.
    Values are compared by structure.  CPython also takes an item of a
    container to be equal to itself, which shows only on a container that
    holds a NaN and is compared with itself; the script does that at
    line 109 alone, where the two answers differ in whether line 110
    stores the value the key already has (see [assign_own_value]). *)
Fixpoint py_eq (a b : json) {struct a} : bool :=
  match a, b with
  | JNull, JNull => true
  | JStr s, JStr t => String.eqb s t
  | JList l, JList m =>
      (fix items (l m : list json) {struct l} : bool :=
         match l, m with
         | [], [] => true
         | x :: l', y :: m' => py_eq x y && items l' m'
         | _, _ => false
         end) l m
  | JDict d, JDict e =>
      Nat.eqb (length d) (length e)
      && (fix items (d : list (string * json)) {struct d} : bool :=
            match d with
            | [] => true
            | (k, v) :: d' =>
                match dict_get k e with
                | Some w => py_eq v w
                | None => false
                end && items d'
            end) d
  | _, _ =>
      match as_number a, as_number b with
      | Some x, Some y => float_eq x y
      | _, _ => false
      end
  end.

(** [a != b] *)
Definition py_ne (a b : json) : bool := negb (py_eq a b).

(** ** Exceptions and Python's dynamic operations *)

Inductive exn : Type :=
| AttributeError
| IndexError
| KeyError
| TypeError
| NameError (name : string)
| JSONDecodeError
| OutOfModel.   (* no Python exception: see [setitem0] *)

Inductive res (A : Type) : Type :=
| Val (a : A)
| Raise (e : exn).
Arguments Val {A} a.
Arguments Raise {A} e.

(** [o.get(k)]: only a dict has the method; a missing key gives [None]. *)
Definition attr_get (o : json) (k : string) : res json :=
  match o with
  | JDict d => Val (match dict_get k d with Some v => v | None => JNull end)
  | _ => Raise AttributeError
  end.

(** [o[k]] with a string key *)
Definition getitem (o : json) (k : string) : res json :=
  match o with
  | JDict d =>
      match dict_get k d with
      | Some v => Val v
      | None => Raise KeyError
      end
  | _ => Raise TypeError
  end.

(** [o[0]]: the first item of a list, the first character of a string.
    The keys of a parsed object are strings, so [0] is never one. *)
Definition subscript0 (o : json) : res json :=
  match o with
  | JList (x :: _) => Val x
  | JList [] => Raise IndexError
  | JStr (String c _) => Val (JStr (String c ""))
  | JStr EmptyString => Raise IndexError
  | JDict _ => Raise KeyError
  | _ => Raise TypeError
  end.

(** [len(o)] *)
Definition py_len (o : json) : res nat :=
  match o with
  | JList l => Val (length l)
  | JStr s => Val (String.length s)
  | JDict d => Val (length d)
  | _ => Raise TypeError
  end.

(** [o[k] = v] with a string key *)
Definition setitem (o : json) (k : string) (v : json) : res json :=
  match o with
  | JDict d => Val (JDict (dict_set k v d))
  | _ => Raise TypeError
  end.

(** [o.insert(0, v)]: only a list has the method. *)
Definition insert0 (o : json) (v : json) : res json :=
  match o with
  | JList l => Val (JList (v :: l))
  | _ => Raise AttributeError
  end.

(** [o[0] = v].  On a dict Python would add the integer key [0]; a parsed
    object with such a key is not a [json] value, which [OutOfModel]
    records, and [main] never gets there (see [main_in_model]). *)
Definition setitem0 (o : json) (v : json) : res json :=
  match o with
  | JList (_ :: l) => Val (JList (v :: l))
  | JList [] => Raise IndexError
  | JDict _ => Raise OutOfModel
  | _ => Raise TypeError
  end.

(** Sequencing: an exception ends the sequence. *)
Definition res_bind {A B} (r : res A) (k : A -> res B) : res B :=
  match r with
  | Val a => k a
  | Raise e => Raise e
  end.

(** ** The process

    The script works on one file, [repo.json] in the working directory.  It
    is missing, or holds text [json.load] rejects, or holds a document. *)
Inductive disk : Type :=
| Missing
| Unparseable
| Document (data : json).

Record process : Type := {
  fs : disk;
  writes : nat;                 (* how often the file was written *)
  stdout : list string          (* the lines printed, oldest first *)
}.

(** How a statement ends: control goes on to the next one, [main] returns,
    or an exception leaves [main]. *)
Inductive flow (A : Type) : Type :=
| Next (a : A)
| Return (code : Z)
| Uncaught (e : exn).
Arguments Next {A} a.
Arguments Return {A} code.
Arguments Uncaught {A} e.

Definition M (A : Type) : Type := process -> process * flow A.

Definition ret {A} (a : A) : M A := fun s => (s, Next a).

Definition bind {A B} (m : M A) (k : A -> M B) : M B :=
  fun s =>
    match m s with
    | (s', Next a) => k a s'
    | (s', Return c) => (s', Return c)
    | (s', Uncaught e) => (s', Uncaught e)
    end.

Definition lift {A} (r : res A) : M A :=
  fun s =>
    match r with
    | Val a => (s, Next a)
    | Raise e => (s, Uncaught e)
    end.

Declare Scope py_scope.
Delimit Scope py_scope with py.
Notation "x <- m ;; k" := (bind m (fun x => k))
  (at level 100, m at next level, right associativity) : py_scope.
Notation "' pat <- m ;; k" := (bind m (fun x => match x with pat => k end))
  (at level 100, pat pattern, m at next level, right associativity) : py_scope.
Notation "m ;; k" := (bind m (fun _ => k))
  (at level 100, right associativity) : py_scope.
Notation "x <~ r ;; k" := (res_bind r (fun x => k))
  (at level 100, r at next level, right associativity) : py_scope.
Open Scope py_scope.

(** [return code] *)
Definition return_ {A} (code : Z) : M A := fun s => (s, Return code).

(** [print(msg)] *)
Definition print (msg : string) : M unit :=
  fun s =>
    ({| fs := fs s; writes := writes s; stdout := stdout s ++ [msg] |},
     Next tt).

(** [printf(msg)].  The module neither defines nor imports a [printf] and
    Python has no such builtin: looking the name up raises [NameError]
    before anything is written. *)
Definition printf (msg : string) : M unit :=
  fun s => (s, Uncaught (NameError "printf")).

(** [os.path.exists('repo.json')] *)
Definition path_exists : M bool :=
  fun s => (s, Next match fs s with Missing => false | _ => true end).

(** [with open('repo.json', 'r') as f: json.load(f)] *)
Definition json_load : M json :=
  fun s =>
    match fs s with
    | Document data => (s, Next data)
    | _ => (s, Uncaught JSONDecodeError)
    end.

(** [with open('repo.json', 'w') as f: json.dump(data, f, ...)] *)
Definition json_dump (data : json) : M unit :=
  fun s =>
    ({| fs := Document data; writes := S (writes s); stdout := stdout s |},
     Next tt).

(** ** The script *)

(** What [parse_args] returns: an option is [None] when its flag is not
    on the command line; [--size] is converted by [int]. *)
Record Namespace : Type := {
  release_tag : option string;
  catbox_url : option string;
  release_notes : option string;
  size : option Z
}.

(** [os.environ] *)
Definition environ : Type := list (string * string).

(** Lines 33-35: the command line first, the environment otherwise. *)
Definition release_of (args : Namespace) (env : environ) : option string :=
  str_or (release_tag args) (dict_get "RELEASE_TAG" env).

Definition catbox_of (args : Namespace) (env : environ) : option string :=
  str_or (catbox_url args) (dict_get "CATBOX_URL" env).

Definition release_notes_of (args : Namespace) (env : environ) : option string :=
  str_or (release_notes args) (dict_get "RELEASE_NOTES" env).

(** Line 59: [catbox if catbox else app.get('downloadURL') or ''] *)
Definition new_download_of (catbox : option string) (app : json) : res json :=
  if truthy_str catbox then Val (of_opt catbox)
  else
    d <~ attr_get app "downloadURL" ;;
    Val (py_or d (JStr "")).

(** Lines 73-78 *)
Definition new_localized_of (release release_notes : option string) : string :=
  let parts :=
    ("This version includes the ApolloICA tweak version: "
       ++ format_str release ++ " patched with Liquid Glass support.")
    :: (if truthy_str release_notes then [format_str release_notes] else [])
  in
  strip (join (nl ++ nl) parts).

(** Lines 81-83: the first entry of [app['versions']], or [None]. *)
Definition prev_of (app : json) : res json :=
  versions <~ attr_get app "versions" ;;
  if truthy versions then
    vs <~ getitem app "versions" ;;
    n <~ py_len vs ;;
    if (0 <? n)%nat then
      vs <~ getitem app "versions" ;;
      subscript0 vs
    else Val JNull
  else Val JNull.

(** Lines 85-96: the new entry, with [minOSVersion] taken from [prev]. *)
Definition new_version_obj_of (prev new_download : json) (new_size : Z)
    (release : option string) (date_iso new_localized : string) : res json :=
  let new_version_obj :=
    JDict [ ("downloadURL", new_download);
            ("size", JInt new_size);
            ("version", of_opt release);
            ("buildVersion", JStr "1");
            ("date", JStr date_iso);
            ("localizedDescription", JStr new_localized) ] in
  if truthy prev then
    m <~ attr_get prev "minOSVersion" ;;
    if truthy m then
      m <~ attr_get prev "minOSVersion" ;;
      setitem new_version_obj "minOSVersion" m
    else Val new_version_obj
  else Val new_version_obj.

(** Lines 101-115, one field: [if app.get(k) != new: app[k] = new;
    changed = True]. *)
Definition update_field (k : string) (new : json) (st : json * bool)
  : res (json * bool) :=
  let '(app, changed) := st in
  old <~ attr_get app k ;;
  if py_ne old new then
    app <~ setitem app k new ;;
    Val (app, true)
  else Val (app, changed).

(** Lines 118-130.  The list [app['versions']] is changed in place: the
    model stores the changed list back under its key. *)
Definition update_versions (release : option string) (new_version_obj : json)
    (st : json * bool) : res (json * bool) :=
  let '(app, changed) := st in
  versions <~ attr_get app "versions" ;;
  match versions with
  | JNull =>
      app <~ setitem app "versions" (JList [new_version_obj]) ;;
      Val (app, true)
  | _ =>
      top_version <~
        (if truthy versions then
           n <~ py_len versions ;;
           if (0 <? n)%nat then
             top <~ subscript0 versions ;;
             attr_get top "version"
           else Val JNull
         else Val JNull) ;;
      if py_ne top_version (of_opt release) then
        vs <~ getitem app "versions" ;;
        vs <~ insert0 vs new_version_obj ;;
        app <~ setitem app "versions" vs ;;
        Val (app, true)
      else
        vs <~ getitem app "versions" ;;
        vs <~ setitem0 vs new_version_obj ;;
        app <~ setitem app "versions" vs ;;
        Val (app, true)
  end.

(** The document as [json.dump] sees it.  When [apps] is a list, [app] is
    the very object [data['apps'][0]], so what was assigned to [app] is in
    [data].  (A string [apps] gives a fresh one-character string, and
    nothing of [data] changes.) *)
Definition store_app0 (data app : json) : json :=
  match data with
  | JDict d =>
      match dict_get "apps" d with
      | Some (JList (_ :: rest)) =>
          JDict (dict_set "apps" (JList (app :: rest)) d)
      | _ => data
      end
  | _ => data
  end.

(** [main()], lines 29-139.  [now] is the text line 70 computes from the
    clock. *)
Definition main (args : Namespace) (env : environ) (now : string) : M unit :=
  let release := release_of args env in
  let catbox := catbox_of args env in
  let release_notes := release_notes_of args env in
  let provided_size := size args in
  let p := "repo.json" in
  found <- path_exists ;;
  if negb found then
    (print ("repo.json not found at " ++ p) ;; return_ 1)
  else
  data <- json_load ;;
  if negb (truthy_str release) then
    (print "RELEASE_TAG not provided; nothing to do" ;; return_ 0)
  else
  a <- lift (attr_get data "apps") ;;
  let apps := py_or a (JList []) in
  if negb (truthy apps) then
    (print "No apps array found in repo.json" ;; return_ 1)
  else
  app <- lift (subscript0 apps) ;;
  new_download <- lift (new_download_of catbox app) ;;
  new_size <-
    match provided_size with
    | Some n => ret n
    | None => (printf "Size not provided, failed to update repo..." ;; return_ 1)
    end ;;
  let date_iso := now in
  let new_localized := new_localized_of release release_notes in
  prev <- lift (prev_of app) ;;
  new_version_obj <-
    lift (new_version_obj_of prev new_download new_size release date_iso
            new_localized) ;;
  let changed := false in
  '(app, changed) <-
    lift (st <~ update_field "version" (of_opt release) (app, changed) ;;
          st <~ update_field "versionDate" (JStr date_iso) st ;;
          st <~ update_field "downloadURL" new_download st ;;
          st <~ update_field "size" (JInt new_size) st ;;
          update_versions release new_version_obj st) ;;
  (if changed then
     (json_dump (store_app0 data app) ;; print "repo.json updated")
   else print "No changes required for repo.json") ;;
  return_ 0.

(** ** Running the script: [raise SystemExit(main())]

    The returned integer is the exit status; an exception that leaves
    [main] ends the process with a traceback on standard error and
    status 1. *)
Record outcome : Type := {
  exit_code : Z;
  printed : list string;
  traceback : option exn;
  file_writes : nat;
  disk_after : disk
}.

Definition run (args : Namespace) (env : environ) (now : string) (d : disk)
  : outcome :=
  match main args env now {| fs := d; writes := 0; stdout := [] |} with
  | (s, Next _) =>
      {| exit_code := 0; printed := stdout s; traceback := None;
         file_writes := writes s; disk_after := fs s |}
  | (s, Return c) =>
      {| exit_code := c; printed := stdout s; traceback := None;
         file_writes := writes s; disk_after := fs s |}
  | (s, Uncaught e) =>
      {| exit_code := 1; printed := stdout s; traceback := Some e;
         file_writes := writes s; disk_after := fs s |}
  end.

(** ** Reading a manifest *)

(** [data['apps'][0]] of a manifest of the expected shape *)
Definition app0 (data : json) : option json :=
  match data with
  | JDict d =>
      match dict_get "apps" d with
      | Some (JList (a :: _)) => Some a
      | _ => None
      end
  | _ => None
  end.

(** The items of [app['versions']] *)
Definition versions_of (app : json) : option (list json) :=
  match app with
  | JDict a =>
      match dict_get "versions" a with
      | Some (JList l) => Some l
      | _ => None
      end
  | _ => None
  end.

(** A field of an object *)
Definition field (k : string) (o : json) : option json :=
  match o with
  | JDict d => dict_get k d
  | _ => None
  end.

(** The keys of the root object, in order *)
Definition root_keys (data : json) : option (list string) :=
  match data with
  | JDict d => Some (dict_keys d)
  | _ => None
  end.

(** [apps[1:]] *)
Definition other_apps (data : json) : option (list json) :=
  match field "apps" data with
  | Some (JList (_ :: rest)) => Some rest
  | _ => None
  end.

(** The first app in the file a run leaves *)
Definition app0_after (o : outcome) : option json :=
  match disk_after o with
  | Document data => app0 data
  | _ => None
  end.

(** The [versions] of the first app in the file a run leaves *)
Definition written_versions (o : outcome) : option (list json) :=
  match disk_after o with
  | Document data =>
      match app0 data with
      | Some app => versions_of app
      | None => None
      end
  | _ => None
  end.

(** What lines 95-96 take over from the first entry of [app['versions']]:
    its [minOSVersion], when Python takes that value for true. *)
Definition carried_minOSVersion (app : json) : option json :=
  match versions_of app with
  | Some (top :: _) =>
      match field "minOSVersion" top with
      | Some m => if truthy m then Some m else None
      | None => None
      end
  | _ => None
  end.

(** ** The script, path by path

    Functions the proofs use to say what [main] computes: its statements
    on the items of an object, and the ways a run ends. *)

(** [app.get(k)] on the items of an object *)
Definition get_or_none (k : string) (a : list (string * json)) : json :=
  match dict_get k a with
  | Some v => v
  | None => JNull
  end.

(** One guarded assignment of lines 101-115 on the items of [app] *)
Definition assign (k : string) (new : json) (a : list (string * json))
  : list (string * json) :=
  if py_ne (get_or_none k a) new then dict_set k new a else a.

(** Lines 101-115 on the items of [app] *)
Definition top_fields (release : option string) (now : string)
    (new_download : json) (n : Z) (a : list (string * json))
  : list (string * json) :=
  assign "size" (JInt n)
    (assign "downloadURL" new_download
       (assign "versionDate" (JStr now)
          (assign "version" (of_opt release) a))).

(** Line 59 on an object *)
Definition download_for (catbox : option string) (a : list (string * json))
  : json :=
  if truthy_str catbox then of_opt catbox
  else py_or (get_or_none "downloadURL" a) (JStr "").

(** Lines 59 and 81-130 as one function of [app]: everything [main] does
    with the app once the size is known. *)
Definition update_app (release catbox notes : option string) (n : Z)
    (now : string) (app : json) : res (json * bool) :=
  new_download <~ new_download_of catbox app ;;
  prev <~ prev_of app ;;
  new_version_obj <~
    new_version_obj_of prev new_download n release now
      (new_localized_of release notes) ;;
  st <~ update_field "version" (of_opt release) (app, false) ;;
  st <~ update_field "versionDate" (JStr now) st ;;
  st <~ update_field "downloadURL" new_download st ;;
  st <~ update_field "size" (JInt n) st ;;
  update_versions release new_version_obj st.

(** How the process ends when an exception leaves [main] *)
Definition crash (e : exn) (printed_so_far : list string) (d : disk)
  : outcome :=
  {| exit_code := 1; printed := printed_so_far; traceback := Some e;
     file_writes := 0; disk_after := d |}.

(** Lines 132-139, and the end of the process, after [update_app] *)
Definition finish (data : json) (r : res (json * bool)) : outcome :=
  match r with
  | Val (app', true) =>
      {| exit_code := 0; printed := ["repo.json updated"]; traceback := None;
         file_writes := 1; disk_after := Document (store_app0 data app') |}
  | Val (app', false) =>
      {| exit_code := 0; printed := ["No changes required for repo.json"];
         traceback := None; file_writes := 0; disk_after := Document data |}
  | Raise e => crash e [] (Document data)
  end.

(** ** Shapes of a manifest *)

(** The value of [versions] for which line 120 or line 125 leaves the new
    entry alone in the list. *)
Definition no_versions (a : list (string * json)) : Prop :=
  dict_get "versions" a = None
  \/ dict_get "versions" a = Some JNull
  \/ dict_get "versions" a = Some (JList []).

(** The shape of [app] the statements of [main] rely on: an object whose
    [versions] is absent, null, an empty list, or a list that starts with
    an object. *)
Definition app_shape_ok (app : json) : bool :=
  match app with
  | JDict a =>
      match dict_get "versions" a with
      | None | Some JNull | Some (JList []) | Some (JList (JDict _ :: _)) =>
          true
      | _ => false
      end
  | _ => false
  end.

(** The same for the whole manifest: an object whose [apps] is a list that
    starts with such an app. *)
Definition well_shaped (data : json) : bool :=
  match app0 data with
  | Some app => app_shape_ok app
  | None => false
  end.

Definition in_model {A} (x : res A) : Prop := x <> Raise OutOfModel.

(** ** The example of the specification *)

Definition old_entry_items : list (string * json) :=
  [ ("version", JStr "1.0"); ("size", JInt 10);
    ("downloadURL", JStr "old"); ("buildVersion", JStr "1");
    ("date", JStr "2024-01-01T00:00:00+00:00");
    ("localizedDescription", JStr "old desc") ].

Definition old_entry : json := JDict old_entry_items.

Definition example_app_items : list (string * json) :=
  [ ("version", JStr "1.0"); ("downloadURL", JStr "old"); ("size", JInt 10);
    ("versions", JList [ old_entry ]) ].

Definition example_root : list (string * json) :=
  [ ("apps", JList [ JDict example_app_items ]) ].

Definition example_manifest : json := JDict example_root.

Definition example_args (notes : option string) : Namespace :=
  {| release_tag := Some "1.1"; catbox_url := Some "https://x/y";
     release_notes := notes; size := Some 999 |}.

(** The same command line for another tag, without notes *)
Definition release_args (tag : string) : Namespace :=
  {| release_tag := Some tag; catbox_url := Some "https://x/y";
     release_notes := None; size := Some 999 |}.

(** A manifest whose app has no [versions] yet *)
Definition fresh_app_items : list (string * json) :=
  [ ("version", JStr "0.9"); ("downloadURL", JStr "old") ].

Definition fresh_root : list (string * json) :=
  [ ("apps", JList [ JDict fresh_app_items ]) ].

(** A manifest whose first version entry names a minimum OS version *)
Definition min_entry : json :=
  JDict [ ("version", JStr "1.0"); ("minOSVersion", JStr "15.0") ].

Definition min_app : json :=
  JDict [ ("version", JStr "1.0"); ("versions", JList [ min_entry ]) ].

Definition min_manifest : json := JDict [ ("apps", JList [ min_app ]) ].

(** ** Other inputs *)

(** A command line without any flag *)
Definition no_flags : Namespace :=
  {| release_tag := None; catbox_url := None; release_notes := None;
     size := None |}.

(** Only the release tag on the command line *)
Definition tag_only (tag : string) : Namespace :=
  {| release_tag := Some tag; catbox_url := None; release_notes := None;
     size := None |}.

Definition a_date : string := "2026-01-01T00:00:00+00:00".

(** The manifest of the counterexample: the first entry of [versions] has
    an empty [minOSVersion]. *)
Definition blank_min_entry : json :=
  JDict [ ("version", JStr "1.0"); ("minOSVersion", JStr "") ].

Definition blank_min_manifest : json :=
  JDict [ ("apps",
           JList [ JDict [ ("version", JStr "1.0");
                           ("versions", JList [ blank_min_entry ]) ] ]) ].

(** A manifest with a second app and a field beside [apps] *)
Definition two_apps_root : list (string * json) :=
  [ ("name", JStr "Repo");
    ("apps", JList [ JDict example_app_items; JDict fresh_app_items ]) ].

(** ** A manifest outside the data model *)


(** ** What a run leaves in the app *)

(** The entries of [versions] that stay behind the new one: all of them
    when the first is of another tag, all but the first when it is of the
    release tag (lines 123-130), none when there was no list. *)
Definition kept_versions (r : string) (a : list (string * json))
  : list json :=
  match dict_get "versions" a with
  | Some (JList (JDict e :: vs)) =>
      if py_ne (get_or_none "version" e) (JStr r) then JDict e :: vs else vs
  | _ => []
  end.

(** The keys of the literal of lines 85-92, in its order *)
Definition entry_keys : list string :=
  [ "downloadURL"; "size"; "version"; "buildVersion"; "date";
    "localizedDescription" ].

(** The keys lines 101-120 assign to *)
Definition assigned_keys : list string :=
  [ "version"; "versionDate"; "downloadURL"; "size"; "versions" ].

(** The items of the entry lines 85-96 build: the literal, and after it
    [minOSVersion] when one is taken over. *)
Definition entry_items (new_download : json) (n : Z) (release : option string)
    (date_iso new_localized : string) (min_os : option json)
  : list (string * json) :=
  [ ("downloadURL", new_download);
    ("size", JInt n);
    ("version", of_opt release);
    ("buildVersion", JStr "1");
    ("date", JStr date_iso);
    ("localizedDescription", JStr new_localized) ]
  ++ match min_os with
     | Some m => [ ("minOSVersion", m) ]
     | None => []
     end.

(** [[k]] when the object has no key [k], nothing otherwise *)
Definition if_missing (k : string) (a : list (string * json)) : list string :=
  match dict_get k a with
  | Some _ => []
  | None => [k]
  end.

(** The keys of an object, in order *)
Definition object_keys (o : json) : option (list string) :=
  match o with
  | JDict d => Some (dict_keys d)
  | _ => None
  end.

(** ** The description *)

(** The first part of line 73, for a release tag *)
Definition header_of (release : string) : string :=
  "This version includes the ApolloICA tweak version: " ++ release
  ++ " patched with Liquid Glass support.".

(** [s.rstrip()] *)
Definition rstrip (s : string) : string :=
  string_of_list_ascii
    (rev (dropwhile py_isspace (rev (list_ascii_of_string s)))).

(** ** Inputs for the further properties *)

(** Tag and size on the command line, no URL *)
Definition args_without_url : Namespace :=
  {| release_tag := Some "1.1"; catbox_url := None; release_notes := None;
     size := Some 999 |}.

(** A manifest whose app gives its size as the float [999.0] *)
Definition float_size_manifest : json :=
  JDict [ ("apps",
           JList [ JDict [ ("name", JStr "Apollo");
                           ("size", JFloat (FFin 999 0)) ] ]) ].

(** A manifest with an empty list of apps *)
Definition no_apps_root : list (string * json) :=
  [ ("name", JStr "Repo"); ("apps", JList []) ].

(** The clock text of another time zone *)
Definition another_date : string := "2026-01-01T09:00:00+09:00".

(** An environment with another tag and a variable the script ignores *)
Definition other_env : environ :=
  [ ("RELEASE_TAG", "9.9"); ("CATBOX_URL", "https://z"); ("SIZE", "5") ].

(** ** Endings *)

(** Two computations end alike: both with a value, or both with the same
    exception. *)
Definition same_ending {A B} (x : res A) (y : res B) : Prop :=
  match x, y with
  | Val _, Val _ => True
  | Raise e, Raise e' => e = e'
  | _, _ => False
  end.

(** * Properties *)

(** ** Dictionaries *)

(** [d[k] = v] keeps the keys of a dict distinct. *)
Lemma dict_set_keys_in {A} (k k' : string) (v : A) d :
  In k' (dict_keys (dict_set k v d)) -> k' = k \/ In k' (dict_keys d).
Proof.
  unfold dict_keys. induction d as [|[k0 v0] d IH]; simpl.
  - intros [H|[]]. now left.
  - destruct (String.eqb_spec k0 k) as [->|N]; simpl.
    + intros [H|H]; auto.
    + intros [H|H]; auto. destruct (IH H); auto.
Qed.

Lemma dict_set_NoDup {A} (k : string) (v : A) d :
  NoDup (dict_keys d) -> NoDup (dict_keys (dict_set k v d)).
Proof.
  induction d as [|[k0 v0] d IH]; simpl; intros H.
  - constructor; [intros [] | constructor].
  - inversion H as [|? ? Hin Hd]; subst.
    destruct (String.eqb_spec k0 k) as [->|N]; simpl.
    + now constructor.
    + constructor; [|now apply IH].
      intros Hk. apply dict_set_keys_in in Hk. destruct Hk; congruence.
Qed.

Lemma dict_get_set_same {A} (k : string) (v : A) d :
  dict_get k (dict_set k v d) = Some v.
Proof.
  induction d as [|[k' v'] d IH]; simpl.
  - now rewrite String.eqb_refl.
  - destruct (String.eqb k' k) eqn:E; simpl.
    + now rewrite String.eqb_refl.
    + now rewrite E.
Qed.

Lemma dict_get_set_other {A} (k k' : string) (v : A) d :
  k' <> k -> dict_get k (dict_set k' v d) = dict_get k d.
Proof.
  intros Hk. induction d as [|[k0 v0] d IH]; simpl.
  - destruct (String.eqb_spec k' k); congruence.
  - destruct (String.eqb_spec k0 k') as [->|N]; simpl.
    + destruct (String.eqb_spec k' k); congruence.
    + now rewrite IH.
Qed.

Lemma dict_set_same_value {A} (k : string) (v : A) d :
  dict_get k d = Some v -> dict_set k v d = d.
Proof.
  induction d as [|[k' v'] d IH]; simpl; [discriminate|].
  destruct (String.eqb_spec k' k) as [->|N].
  - now intros [= ->].
  - intros H. now rewrite IH.
Qed.

Lemma dict_keys_set_present {A} (k : string) (v w : A) d :
  dict_get k d = Some w -> dict_keys (dict_set k v d) = dict_keys d.
Proof.
  unfold dict_keys. induction d as [|[k0 v0] d IH]; simpl; [discriminate|].
  destruct (String.eqb_spec k0 k) as [->|N]; simpl; intros H.
  - reflexivity.
  - now rewrite IH.
Qed.

(** ** Equality with a string *)

Lemma py_eq_str v s : py_eq v (JStr s) = true <-> v = JStr s.
Proof.
  destruct v as [| b | n | f | t | l | d]; simpl;
    try (split; [discriminate | congruence]).
  rewrite String.eqb_eq. split; congruence.
Qed.

Lemma py_ne_str v s : py_ne v (JStr s) = true <-> v <> JStr s.
Proof.
  unfold py_ne. rewrite negb_true_iff, <- not_true_iff_false, py_eq_str.
  tauto.
Qed.

Lemma truthy_str_some o :
  truthy_str o = true <-> exists r, o = Some r /\ r <> "".
Proof.
  destruct o as [r|]; simpl.
  - unfold truthy_str; simpl. rewrite negb_true_iff.
    destruct (String.eqb_spec r ""); split.
    + discriminate.
    + intros (r' & [= <-] & N). contradiction.
    + eauto.
    + reflexivity.
  - split; [discriminate | intros (r & H & _); discriminate].
Qed.

(** ** The paths of a run *)

(** [run] path by path, in the order of the statements of [main]. *)
Lemma run_eq args env now d :
  run args env now d =
  match d with
  | Missing =>
      {| exit_code := 1; printed := ["repo.json not found at repo.json"];
         traceback := None; file_writes := 0; disk_after := d |}
  | Unparseable => crash JSONDecodeError [] d
  | Document data =>
      if negb (truthy_str (release_of args env)) then
        {| exit_code := 0;
           printed := ["RELEASE_TAG not provided; nothing to do"];
           traceback := None; file_writes := 0; disk_after := d |}
      else
        match attr_get data "apps" with
        | Raise e => crash e [] d
        | Val a =>
            if negb (truthy (py_or a (JList []))) then
              {| exit_code := 1;
                 printed := ["No apps array found in repo.json"];
                 traceback := None; file_writes := 0; disk_after := d |}
            else
              match subscript0 (py_or a (JList [])) with
              | Raise e => crash e [] d
              | Val app =>
                  match size args with
                  | Some n =>
                      finish data
                        (update_app (release_of args env) (catbox_of args env)
                           (release_notes_of args env) n now app)
                  | None =>
                      match new_download_of (catbox_of args env) app with
                      | Raise e => crash e [] d
                      | Val _ => crash (NameError "printf") [] d
                      end
                  end
              end
        end
  end.
Proof.
  unfold run, main, update_app, finish, crash.
  unfold bind at 1. unfold path_exists at 1. cbn [fs negb].
  destruct d as [| |data]; try reflexivity.
  cbn [negb]. unfold bind at 1. unfold json_load at 1. cbn [fs].
  destruct (truthy_str (release_of args env)); [|reflexivity].
  cbn [negb].
  unfold bind at 1. unfold lift at 1.
  destruct (attr_get data "apps") as [a|e]; [|reflexivity].
  destruct (truthy (py_or a (JList []))); [|reflexivity].
  cbn [negb].
  unfold bind at 1. unfold lift at 1.
  destruct (subscript0 _) as [app|e]; [|reflexivity].
  unfold bind at 1. unfold lift at 1.
  destruct (new_download_of _ app) as [dl|e];
    [|destruct (size args); reflexivity].
  cbn [res_bind].
  destruct (size args) as [n|]; [|reflexivity].
  unfold bind at 1. unfold ret at 1.
  unfold bind at 1. unfold lift at 1.
  destruct (prev_of app) as [prev|e]; [|reflexivity].
  cbn [res_bind].
  unfold bind at 1. unfold lift at 1.
  destruct (new_version_obj_of _ _ _ _ _ _) as [new|e]; [|reflexivity].
  cbn [res_bind].
  unfold bind at 1. unfold lift at 1.
  match goal with
  | |- context [res_bind ?r ?k] => destruct (res_bind r k) as [[app' [|]]|e]
  end; reflexivity.
Qed.

(** ** The steps of [update_app] on an object *)

Lemma update_field_dict k new a c :
  update_field k new (JDict a, c) =
  Val (JDict (assign k new a), c || py_ne (get_or_none k a) new).
Proof.
  unfold update_field, assign. cbn [attr_get res_bind].
  fold (get_or_none k a).
  destruct (py_ne (get_or_none k a) new); cbn.
  - now rewrite orb_true_r.
  - now rewrite orb_false_r.
Qed.

(** Assigning to a key the value it has changes nothing, whatever the
    comparison of lines 101-113 answers. *)
Lemma assign_own_value k v a :
  dict_get k a = Some v -> assign k v a = a.
Proof.
  intros H. unfold assign. destruct (py_ne _ _); [|reflexivity].
  now apply dict_set_same_value.
Qed.

Lemma assign_get_other k k' new a :
  k <> k' -> dict_get k' (assign k new a) = dict_get k' a.
Proof.
  intros N. unfold assign. destruct (py_ne _ _); [|reflexivity].
  now apply dict_get_set_other.
Qed.

Lemma top_fields_get release now dl n a k :
  k <> "version" -> k <> "versionDate" -> k <> "downloadURL" -> k <> "size" ->
  dict_get k (top_fields release now dl n a) = dict_get k a.
Proof.
  intros. unfold top_fields.
  rewrite !assign_get_other; congruence.
Qed.

(** Lines 118-130 leave [changed] set, whichever branch runs. *)
Lemma update_versions_changed release new st app' c :
  update_versions release new st = Val (app', c) -> c = true.
Proof.
  destruct st as [app c0]. unfold update_versions.
  destruct (attr_get app "versions") as [v|e]; cbn [res_bind];
    [|discriminate].
  assert (G : forall r : res json,
             (app1 <~ r ;; Val (app1, true)) = Val (app', c) -> c = true).
  { intros [x|e]; cbn; congruence. }
  destruct v; try apply G;
    (match goal with
     | |- res_bind ?r _ = _ -> _ => destruct r as [top|e]
     end; cbn [res_bind]; [|discriminate]);
    (destruct (py_ne top (of_opt release));
     (destruct (getitem app "versions") as [vs|e]; cbn [res_bind];
      [|discriminate]);
     [destruct (insert0 vs new) as [vs'|e] | destruct (setitem0 vs new) as [vs'|e]];
     cbn [res_bind]; [apply G | discriminate | apply G | discriminate]).
Qed.

Lemma update_app_changed release catbox notes n now app app' c :
  update_app release catbox notes n now app = Val (app', c) -> c = true.
Proof.
  unfold update_app.
  destruct (new_download_of catbox app) as [dl|e]; cbn [res_bind];
    [|discriminate].
  destruct (prev_of app) as [prev|e]; cbn [res_bind]; [|discriminate].
  destruct (new_version_obj_of _ _ _ _ _ _) as [new|e]; cbn [res_bind];
    [|discriminate].
  destruct (update_field "version" _ _) as [st1|e]; cbn [res_bind];
    [|discriminate].
  destruct (update_field "versionDate" _ _) as [st2|e]; cbn [res_bind];
    [|discriminate].
  destruct (update_field "downloadURL" _ _) as [st3|e]; cbn [res_bind];
    [|discriminate].
  destruct (update_field "size" _ _) as [st4|e]; cbn [res_bind];
    [|discriminate].
  apply update_versions_changed.
Qed.

Lemma new_download_of_dict catbox a :
  new_download_of catbox (JDict a) = Val (download_for catbox a).
Proof.
  unfold new_download_of, download_for.
  destruct (truthy_str catbox); reflexivity.
Qed.

Lemma prev_of_none a : no_versions a -> prev_of (JDict a) = Val JNull.
Proof.
  unfold prev_of. cbn [attr_get res_bind].
  intros [H|[H|H]]; rewrite H; reflexivity.
Qed.

Lemma prev_of_top a x vs :
  dict_get "versions" a = Some (JList (x :: vs)) ->
  prev_of (JDict a) = Val x.
Proof.
  intros H. unfold prev_of. cbn [attr_get getitem res_bind].
  rewrite H. reflexivity.
Qed.

Lemma new_version_obj_of_total prev dl n release now loc :
  prev = JNull \/ (exists e, prev = JDict e) ->
  exists new, new_version_obj_of prev dl n release now loc = Val (JDict new).
Proof.
  intros [->|[e ->]]; unfold new_version_obj_of.
  - cbn. eauto.
  - destruct (truthy (JDict e)); [|eauto].
    cbn [attr_get res_bind].
    destruct (truthy _); cbn; eauto.
Qed.

Lemma new_version_obj_of_version prev dl n release now loc new :
  new_version_obj_of prev dl n release now loc = Val new ->
  field "version" new = Some (of_opt release).
Proof.
  unfold new_version_obj_of.
  destruct (truthy prev); [|intros [= <-]; reflexivity].
  destruct (attr_get prev "minOSVersion") as [m|e]; cbn [res_bind];
    [|discriminate].
  destruct (truthy m); intros [= <-]; reflexivity.
Qed.

Lemma update_versions_fresh r new a c :
  no_versions a ->
  update_versions (Some r) new (JDict a, c) =
  Val (JDict (dict_set "versions" (JList [new]) a), true).
Proof.
  unfold update_versions. cbn [attr_get res_bind].
  intros [H|[H|H]]; rewrite H; try reflexivity.
  cbn. rewrite H. reflexivity.
Qed.

Lemma update_versions_top r new a c e vs :
  dict_get "versions" a = Some (JList (JDict e :: vs)) ->
  update_versions (Some r) new (JDict a, c) =
  Val (JDict (dict_set "versions"
                (JList (if py_ne (get_or_none "version" e) (JStr r)
                        then new :: JDict e :: vs
                        else new :: vs)) a), true).
Proof.
  intros H. unfold update_versions. cbn [attr_get res_bind].
  rewrite H. cbn [truthy py_len length Nat.ltb Nat.leb res_bind subscript0
                  attr_get of_opt].
  fold (get_or_none "version" e).
  destruct (py_ne _ _); cbn [getitem]; rewrite H; reflexivity.
Qed.

(** [update_app] on an object, by the shape of its [versions] *)
Lemma update_app_steps release catbox notes n now a prev new :
  prev_of (JDict a) = Val prev ->
  new_version_obj_of prev (download_for catbox a) n release now
    (new_localized_of release notes) = Val new ->
  exists c,
    update_app release catbox notes n now (JDict a) =
    update_versions release new
      (JDict (top_fields release now (download_for catbox a) n a), c).
Proof.
  intros Hprev Hnew. unfold update_app.
  rewrite new_download_of_dict, Hprev. cbn [res_bind].
  rewrite Hnew. cbn [res_bind].
  do 4 (rewrite update_field_dict; cbn [res_bind]).
  eexists. reflexivity.
Qed.

Lemma update_app_fresh r catbox notes n now a :
  no_versions a ->
  exists new,
    new_version_obj_of JNull (download_for catbox a) n (Some r) now
      (new_localized_of (Some r) notes) = Val new
    /\ update_app (Some r) catbox notes n now (JDict a) =
       Val (JDict (dict_set "versions" (JList [new])
                     (top_fields (Some r) now (download_for catbox a) n a)),
            true).
Proof.
  intros H.
  destruct (new_version_obj_of_total JNull (download_for catbox a) n (Some r)
              now (new_localized_of (Some r) notes)) as [new Hnew];
    [now left|].
  exists (JDict new). split; [exact Hnew|].
  destruct (update_app_steps _ catbox notes n now a _ _
              (prev_of_none a H) Hnew) as [c ->].
  apply update_versions_fresh.
  destruct H as [H|[H|H]]; [left|right;left|right;right];
    rewrite top_fields_get; (exact H || discriminate).
Qed.

Lemma update_app_top r catbox notes n now a e vs :
  dict_get "versions" a = Some (JList (JDict e :: vs)) ->
  exists new,
    new_version_obj_of (JDict e) (download_for catbox a) n (Some r) now
      (new_localized_of (Some r) notes) = Val new
    /\ update_app (Some r) catbox notes n now (JDict a) =
       Val (JDict (dict_set "versions"
                     (JList (if py_ne (get_or_none "version" e) (JStr r)
                             then new :: JDict e :: vs
                             else new :: vs))
                     (top_fields (Some r) now (download_for catbox a) n a)),
            true).
Proof.
  intros H.
  destruct (new_version_obj_of_total (JDict e) (download_for catbox a) n
              (Some r) now (new_localized_of (Some r) notes)) as [new Hnew];
    [right; eauto|].
  exists (JDict new). split; [exact Hnew|].
  destruct (update_app_steps _ catbox notes n now a _ _
              (prev_of_top a _ _ H) Hnew) as [c ->].
  apply update_versions_top.
  rewrite top_fields_get; (exact H || discriminate).
Qed.

(** ** Runs that reach the update *)

Lemma run_on_list args env now d app rest r n :
  release_of args env = Some r -> r <> "" ->
  size args = Some n ->
  dict_get "apps" d = Some (JList (app :: rest)) ->
  run args env now (Document (JDict d)) =
  finish (JDict d)
    (update_app (Some r) (catbox_of args env) (release_notes_of args env)
       n now app).
Proof.
  intros Hr Hne Hn Happs. rewrite run_eq.
  assert (T : truthy_str (release_of args env) = true).
  { apply truthy_str_some. eauto. }
  rewrite T, Hr, Hn. cbn [negb attr_get]. rewrite Happs. reflexivity.
Qed.

Lemma app0_store d app rest app' :
  dict_get "apps" d = Some (JList (app :: rest)) ->
  app0 (store_app0 (JDict d) app') = Some app'.
Proof.
  intros H. unfold store_app0. rewrite H. cbn [app0].
  now rewrite dict_get_set_same.
Qed.

Lemma versions_of_set l a :
  versions_of (JDict (dict_set "versions" (JList l) a)) = Some l.
Proof. cbn [versions_of]. now rewrite dict_get_set_same. Qed.

Lemma differs_from_release e r :
  dict_get "version" e <> Some (JStr r) ->
  py_ne (get_or_none "version" e) (JStr r) = true.
Proof.
  intros H. apply py_ne_str. unfold get_or_none.
  destruct (dict_get "version" e); congruence.
Qed.

Lemma equals_release e r :
  dict_get "version" e = Some (JStr r) ->
  py_ne (get_or_none "version" e) (JStr r) = false.
Proof.
  intros H. unfold get_or_none, py_ne. rewrite H.
  cbn. now rewrite String.eqb_refl.
Qed.

(** ** Runs with a release tag and a size *)

Section ReleaseRun.
Variables (args : Namespace) (env : environ) (now : string).
Variables (r : string) (n : Z).
Hypothesis release_given : release_of args env = Some r.
Hypothesis release_not_empty : r <> "".
Hypothesis size_given : size args = Some n.

Variables (d : list (string * json)) (a : list (string * json))
          (rest : list json).
Hypothesis first_app : dict_get "apps" d = Some (JList (JDict a :: rest)).

(** C3: when the first entry of [apps[0].versions] is not of the release
    tag, the run puts a new entry of that tag in front of the list: the
    list is one longer and every old entry is one place further down. *)
Theorem prepend_when_top_differs e vs :
  dict_get "versions" a = Some (JList (JDict e :: vs)) ->
  dict_get "version" e <> Some (JStr r) ->
  exists data' app' new vs',
    disk_after (run args env now (Document (JDict d))) = Document data'
    /\ app0 data' = Some app'
    /\ versions_of app' = Some vs'
    /\ length vs' = S (length (JDict e :: vs))
    /\ nth_error vs' 0 = Some new
    /\ field "version" new = Some (JStr r)
    /\ forall i, nth_error vs' (S i) = nth_error (JDict e :: vs) i.
Proof.
  intros Hvs Hne.
  rewrite (run_on_list _ _ _ _ _ _ _ _ release_given release_not_empty
             size_given first_app).
  destruct (update_app_top r (catbox_of args env)
              (release_notes_of args env) n now a e vs Hvs)
    as (new & Hnew & ->).
  rewrite (differs_from_release _ _ Hne). cbn [finish disk_after].
  eexists _, _, new, _. split; [reflexivity|].
  split; [exact (app0_store _ _ _ _ first_app)|].
  split; [apply versions_of_set|].
  split; [reflexivity|]. split; [reflexivity|].
  split; [exact (new_version_obj_of_version _ _ _ _ _ _ _ Hnew)|].
  reflexivity.
Qed.

(** C4: when the first entry of [apps[0].versions] is of the release
    tag, the run puts the newly built entry in its place: the list keeps
    its length and every other entry stays where it was. *)
Theorem replace_when_top_equal e vs :
  dict_get "versions" a = Some (JList (JDict e :: vs)) ->
  dict_get "version" e = Some (JStr r) ->
  exists data' app' dl new vs',
    disk_after (run args env now (Document (JDict d))) = Document data'
    /\ app0 data' = Some app'
    /\ versions_of app' = Some vs'
    /\ length vs' = length (JDict e :: vs)
    /\ new_download_of (catbox_of args env) (JDict a) = Val dl
    /\ new_version_obj_of (JDict e) dl n (Some r) now
         (new_localized_of (Some r) (release_notes_of args env)) = Val new
    /\ nth_error vs' 0 = Some new
    /\ forall i, nth_error vs' (S i) = nth_error (JDict e :: vs) (S i).
Proof.
  intros Hvs Heq.
  rewrite (run_on_list _ _ _ _ _ _ _ _ release_given release_not_empty
             size_given first_app).
  destruct (update_app_top r (catbox_of args env)
              (release_notes_of args env) n now a e vs Hvs)
    as (new & Hnew & ->).
  rewrite (equals_release _ _ Heq). cbn [finish disk_after].
  eexists _, _, _, new, _. split; [reflexivity|].
  split; [exact (app0_store _ _ _ _ first_app)|].
  split; [apply versions_of_set|].
  split; [reflexivity|].
  split; [apply new_download_of_dict|].
  split; [exact Hnew|]. split; reflexivity.
Qed.

(** C5: when [apps[0].versions] is absent (or null) or an empty list,
    the run leaves exactly one entry there, of the release tag. *)
Theorem single_entry_when_no_versions :
  no_versions a ->
  exists data' app' new,
    disk_after (run args env now (Document (JDict d))) = Document data'
    /\ app0 data' = Some app'
    /\ versions_of app' = Some [new]
    /\ field "version" new = Some (JStr r).
Proof.
  intros Hno.
  rewrite (run_on_list _ _ _ _ _ _ _ _ release_given release_not_empty
             size_given first_app).
  destruct (update_app_fresh r (catbox_of args env)
              (release_notes_of args env) n now a Hno)
    as (new & Hnew & ->).
  cbn [finish disk_after].
  eexists _, _, new. split; [reflexivity|].
  split; [exact (app0_store _ _ _ _ first_app)|].
  split; [apply versions_of_set|].
  exact (new_version_obj_of_version _ _ _ _ _ _ _ Hnew).
Qed.
End ReleaseRun.

(** C2: the example of the specification.  On the example manifest, with
    release tag 1.1, URL https://x/y and size 999, the written manifest has
    these three values in its app, and two versions: a new one of tag 1.1
    and then the old entry of tag 1.0 as it was. *)
Theorem example_release notes env now :
  exists app new,
    run (example_args notes) env now (Document example_manifest) =
    {| exit_code := 0; printed := ["repo.json updated"]; traceback := None;
       file_writes := 1;
       disk_after := Document (JDict [("apps", JList [app])]) |}
    /\ field "version" app = Some (JStr "1.1")
    /\ field "downloadURL" app = Some (JStr "https://x/y")
    /\ field "size" app = Some (JInt 999)
    /\ versions_of app = Some [new; old_entry]
    /\ length [new; old_entry] = 2%nat
    /\ field "version" new = Some (JStr "1.1")
    /\ field "version" old_entry = Some (JStr "1.0").
Proof.
  rewrite run_eq.
  do 2 eexists. split; [cbn; reflexivity|].
  cbn. repeat split.
Qed.

(** ** Missing inputs *)

Lemma run_without_release args env now data :
  truthy_str (release_of args env) = false ->
  run args env now (Document data) =
  {| exit_code := 0; printed := ["RELEASE_TAG not provided; nothing to do"];
     traceback := None; file_writes := 0; disk_after := Document data |}.
Proof. intros H. rewrite run_eq, H. reflexivity. Qed.

(** C1, as stated, fails: without [--size] and without a release tag, on a
    manifest that loads, the run ends with status 0. *)
Lemma size_missing_counterexample :
  size no_flags = None
  /\ run no_flags [] a_date (Document example_manifest) =
     {| exit_code := 0;
        printed := ["RELEASE_TAG not provided; nothing to do"];
        traceback := None; file_writes := 0;
        disk_after := Document example_manifest |}.
Proof. split; reflexivity. Qed.

(** C1, amended: without [--size] the file is never written, and the
    status is 1 unless the manifest loads and the release tag is missing
    too, which is the no-op of status 0. *)
Theorem size_missing_outcome args env now d :
  size args = None ->
  disk_after (run args env now d) = d
  /\ file_writes (run args env now d) = 0%nat
  /\ exit_code (run args env now d) =
     match d with
     | Document _ => if truthy_str (release_of args env) then 1 else 0
     | _ => 1
     end.
Proof.
  intros Hsize. rewrite run_eq, Hsize.
  destruct d as [| |data]; [repeat split..|].
  destruct (truthy_str (release_of args env)); [|repeat split].
  cbn [negb].
  destruct (attr_get data "apps") as [a|e]; [|repeat split].
  destruct (truthy (py_or a (JList []))); [|repeat split].
  cbn [negb].
  destruct (subscript0 _) as [app|e]; [|repeat split].
  destruct (new_download_of _ app); repeat split.
Qed.

(** What happens at line 66: the name [printf] is not bound, so nothing is
    printed and the process dies of the [NameError]. *)
Lemma size_missing_prints_nothing :
  run (tag_only "1.1") [] a_date (Document example_manifest) =
  {| exit_code := 1; printed := []; traceback := Some (NameError "printf");
     file_writes := 0; disk_after := Document example_manifest |}.
Proof. reflexivity. Qed.

(** C6, as stated, fails: without a release tag and without the manifest
    file, the run ends with status 1. *)
Lemma no_release_counterexample :
  release_tag no_flags = None
  /\ dict_get "RELEASE_TAG" ([] : environ) = None
  /\ run no_flags [] a_date Missing =
     {| exit_code := 1; printed := ["repo.json not found at repo.json"];
        traceback := None; file_writes := 0; disk_after := Missing |}.
Proof. repeat split. Qed.

(** C6, amended: when the manifest file exists and parses, a run without
    a release tag, from the flag or from [RELEASE_TAG], prints its message,
    ends with status 0 and does not write the file. *)
Theorem no_release_is_noop args env now data :
  release_tag args = None ->
  dict_get "RELEASE_TAG" env = None ->
  run args env now (Document data) =
  {| exit_code := 0; printed := ["RELEASE_TAG not provided; nothing to do"];
     traceback := None; file_writes := 0; disk_after := Document data |}.
Proof.
  intros Hflag Henv. apply run_without_release.
  unfold release_of. rewrite Hflag, Henv. reflexivity.
Qed.

(** C10: the file is looked for before the release tag is.  Without the
    file the run ends with status 1 whatever the release tag; and without
    a release tag the status is 0 exactly when the file exists and
    parses. *)
Theorem manifest_checked_before_release args env now :
  run args env now Missing =
  {| exit_code := 1; printed := ["repo.json not found at repo.json"];
     traceback := None; file_writes := 0; disk_after := Missing |}
  /\ (truthy_str (release_of args env) = false ->
      forall d,
        exit_code (run args env now d) = 0 <-> exists data, d = Document data).
Proof.
  split; [now rewrite run_eq|].
  intros Hrel d. destruct d as [| |data].
  - rewrite run_eq. cbn. split; [discriminate | intros [? [=]]].
  - rewrite run_eq. cbn. split; [discriminate | intros [? [=]]].
  - rewrite run_without_release by exact Hrel. cbn. split; eauto.
Qed.

(** ** When [update_app] ends without an exception *)

Lemma app_shape_ok_cases app :
  app_shape_ok app = true <->
  exists a, app = JDict a
    /\ (no_versions a
        \/ exists e vs, dict_get "versions" a = Some (JList (JDict e :: vs))).
Proof.
  unfold app_shape_ok, no_versions. split.
  - destruct app as [| | | | | |a]; try discriminate.
    intros H. exists a. split; [reflexivity|].
    destruct (dict_get "versions" a) as [[| | | | |[|[| | | | | |e] vs]|]|];
      try discriminate; eauto 6.
  - intros (a & -> & [[H|[H|H]]|(e & vs & H)]); now rewrite H.
Qed.

Lemma update_app_not_object release catbox notes n now app :
  (forall a, app <> JDict a) ->
  exists e, update_app release catbox notes n now app = Raise e.
Proof.
  intros N. unfold update_app.
  destruct (new_download_of catbox app) as [dl|e]; cbn [res_bind]; [|eauto].
  unfold prev_of.
  destruct app; cbn [attr_get res_bind]; eauto.
  now destruct (N d).
Qed.

Lemma update_versions_shape r new a c st :
  update_versions (Some r) new (JDict a, c) = Val st ->
  app_shape_ok (JDict a) = true.
Proof.
  unfold update_versions, app_shape_ok. cbn [attr_get res_bind getitem].
  destruct (dict_get "versions" a) as [v|]; [|reflexivity].
  destruct v as [| b | z | f | s | l | dd]; try reflexivity.
  - destruct b; cbn; discriminate.
  - destruct (truthy (JInt z)); cbn; discriminate.
  - destruct (truthy (JFloat f)); cbn; discriminate.
  - destruct s; cbn; discriminate.
  - destruct l as [|x l]; [reflexivity|].
    destruct x; try reflexivity; cbn; discriminate.
  - destruct dd; cbn; discriminate.
Qed.

Lemma update_app_object release catbox notes n now a :
  exists c,
    update_app release catbox notes n now (JDict a) =
    (prev <~ prev_of (JDict a) ;;
     new <~ new_version_obj_of prev (download_for catbox a) n release now
              (new_localized_of release notes) ;;
     update_versions release new
       (JDict (top_fields release now (download_for catbox a) n a), c)).
Proof.
  unfold update_app. rewrite new_download_of_dict. cbn [res_bind].
  destruct (prev_of (JDict a)) as [prev|e]; cbn [res_bind];
    [|exists false; reflexivity].
  destruct (new_version_obj_of _ _ _ _ _ _) as [new|e]; cbn [res_bind];
    [|exists false; reflexivity].
  do 4 (rewrite update_field_dict; cbn [res_bind]).
  eexists. reflexivity.
Qed.

Lemma app_shape_ok_top_fields release now dl n a :
  app_shape_ok (JDict (top_fields release now dl n a))
  = app_shape_ok (JDict a).
Proof.
  unfold app_shape_ok. rewrite top_fields_get by discriminate. reflexivity.
Qed.

(** [update_app] ends without an exception exactly on the apps of that
    shape. *)
Lemma update_app_val_iff r catbox notes n now app :
  (exists st, update_app (Some r) catbox notes n now app = Val st)
  <-> app_shape_ok app = true.
Proof.
  split.
  - intros [st H].
    assert (D : (exists a, app = JDict a) \/ forall a, app <> JDict a).
    { destruct app; eauto; right; discriminate. }
    destruct D as [[a ->]|D];
      [|destruct (update_app_not_object (Some r) catbox notes n now _ D)
          as [e He]; rewrite He in H; discriminate].
    destruct (update_app_object (Some r) catbox notes n now a) as [c Hc].
    rewrite Hc in H.
    destruct (prev_of (JDict a)) as [prev|e]; cbn [res_bind] in H;
      [|discriminate].
    destruct (new_version_obj_of _ _ _ _ _ _) as [new|e];
      cbn [res_bind] in H; [|discriminate].
    apply update_versions_shape in H.
    now rewrite app_shape_ok_top_fields in H.
  - intros H. apply app_shape_ok_cases in H.
    destruct H as (a & -> & [H|(e & vs & H)]).
    + destruct (update_app_fresh r catbox notes n now a H) as (new & _ & ->).
      eauto.
    + destruct (update_app_top r catbox notes n now a e vs H)
        as (new & _ & ->).
      eauto.
Qed.

(** ** What a run writes *)

Lemma finish_writes data res :
  file_writes (finish data res) = 1%nat ->
  exists app', res = Val (app', true)
    /\ finish data res =
       {| exit_code := 0; printed := ["repo.json updated"];
          traceback := None; file_writes := 1;
          disk_after := Document (store_app0 data app') |}.
Proof.
  destruct res as [[app' [|]]|e]; cbn; try discriminate. eauto.
Qed.

(** A run that writes the file has loaded a manifest whose [apps] is a
    list, got a release tag and a size, and brought [update_app] on the
    first app to its end. *)
Lemma run_writes_inv args env now d :
  file_writes (run args env now d) = 1%nat ->
  exists dd app rest r n app',
    d = Document (JDict dd)
    /\ dict_get "apps" dd = Some (JList (app :: rest))
    /\ release_of args env = Some r /\ r <> ""
    /\ size args = Some n
    /\ update_app (Some r) (catbox_of args env) (release_notes_of args env)
         n now app = Val (app', true)
    /\ run args env now d =
       {| exit_code := 0; printed := ["repo.json updated"];
          traceback := None; file_writes := 1;
          disk_after :=
            Document (JDict (dict_set "apps" (JList (app' :: rest)) dd)) |}.
Proof.
  rewrite run_eq.
  destruct d as [| |data]; try discriminate.
  destruct (truthy_str (release_of args env)) eqn:T; [|discriminate].
  apply truthy_str_some in T. destruct T as (r & Hr & Hne).
  cbn [negb].
  destruct data as [| | | | | |dd]; try discriminate.
  cbn [attr_get]. fold (get_or_none "apps" dd).
  destruct (truthy (py_or _ _)) eqn:T; [|discriminate].
  cbn [negb].
  unfold py_or in *. unfold get_or_none in *.
  destruct (dict_get "apps" dd) as [a|] eqn:Ha; [|discriminate].
  destruct (truthy a) eqn:Ta; [|discriminate].
  destruct (subscript0 a) as [app|e] eqn:Hsub; [|discriminate].
  destruct (size args) as [n|] eqn:Hn;
    [|destruct (new_download_of _ app); discriminate].
  rewrite Hr. intros W.
  destruct (finish_writes _ _ W) as (app' & Hup & _).
  assert (Hshape : app_shape_ok app = true).
  { apply (update_app_val_iff r (catbox_of args env)
             (release_notes_of args env) n now). eauto. }
  apply app_shape_ok_cases in Hshape. destruct Hshape as (aa & -> & _).
  destruct a as [| | | | s |[|x l]|]; try discriminate.
  - destruct s; discriminate.
  - injection Hsub as ->.
    exists dd, (JDict aa), l, r, n, app'.
    repeat (split; [assumption || reflexivity|]).
    rewrite Hup. cbn [finish store_app0]. rewrite Ha. reflexivity.
Qed.

(** A run that does not write leaves the file as it was. *)
Lemma run_no_write args env now d :
  file_writes (run args env now d) <> 1%nat ->
  disk_after (run args env now d) = d.
Proof.
  rewrite run_eq.
  destruct d as [| |data]; try reflexivity.
  destruct (truthy_str (release_of args env)); [|reflexivity].
  cbn [negb].
  destruct (attr_get data "apps") as [a|e]; [|reflexivity].
  destruct (truthy (py_or a (JList []))); [|reflexivity].
  cbn [negb].
  destruct (subscript0 _) as [app|e]; [|reflexivity].
  destruct (size args) as [n|];
    [|destruct (new_download_of _ app); reflexivity].
  destruct (update_app _ _ _ _ _ _) as [[app' [|]]|e]; cbn;
    congruence.
Qed.

Lemma run_writes_at_most_once args env now d :
  file_writes (run args env now d) = 0%nat
  \/ file_writes (run args env now d) = 1%nat.
Proof.
  rewrite run_eq.
  destruct d as [| |data]; try (now left).
  destruct (truthy_str (release_of args env)); [|now left].
  cbn [negb].
  destruct (attr_get data "apps") as [a|e]; [|now left].
  destruct (truthy (py_or a (JList []))); [|now left].
  cbn [negb].
  destruct (subscript0 _) as [app|e]; [|now left].
  destruct (size args) as [n|];
    [|destruct (new_download_of _ app); now left].
  destruct (update_app _ _ _ _ _ _) as [[app' [|]]|e]; cbn; auto.
Qed.


(** No run prints the message of line 66 either: the call that should
    print it is the one that raises [NameError]. *)
Lemma size_message_never_printed args env now d :
  ~ In "Size not provided, failed to update repo..."
      (printed (run args env now d)).
Proof.
  rewrite run_eq.
  assert (P : forall s, s <> "Size not provided, failed to update repo..." ->
                ~ In "Size not provided, failed to update repo..." [s]).
  { intros s N [H|[]]. congruence. }
  destruct d as [| |data]; try (apply P; discriminate); try (intros []).
  destruct (truthy_str (release_of args env)); [|apply P; discriminate].
  cbn [negb].
  destruct (attr_get data "apps") as [a|e]; [|intros []].
  destruct (truthy (py_or a (JList []))); [|apply P; discriminate].
  cbn [negb].
  destruct (subscript0 _) as [app|e]; [|intros []].
  destruct (size args) as [n|];
    [|destruct (new_download_of _ app); intros []].
  destruct (update_app _ _ _ _ _ _) as [[app' [|]]|e]; cbn;
    try (apply P; discriminate).
  intros [].
Qed.

(** ** minOSVersion *)

Lemma new_entry_minOSVersion app prev dl n release now loc new :
  prev_of app = Val prev ->
  new_version_obj_of prev dl n release now loc = Val new ->
  field "minOSVersion" new = carried_minOSVersion app.
Proof.
  unfold carried_minOSVersion, versions_of, prev_of.
  destruct app as [| | | | | |a]; try discriminate.
  cbn [attr_get getitem res_bind].
  assert (B : forall p, truthy p = false ->
                new_version_obj_of p dl n release now loc = Val new ->
                field "minOSVersion" new = None).
  { intros p F. unfold new_version_obj_of. rewrite F.
    intros [= <-]. reflexivity. }
  destruct (dict_get "versions" a) as [v|];
    [|intros [= <-]; now apply B].
  destruct (truthy v) eqn:T.
  - cbn [res_bind].
    destruct v as [| | | | s |[|top l]|dd]; try discriminate.
    + destruct s as [|c s]; [discriminate|].
      cbn. intros [= <-]. discriminate.
    + cbn. intros [= <-]. unfold new_version_obj_of.
      destruct (truthy top) eqn:Tt.
      * destruct top as [| | | | | |e]; try discriminate.
        cbn [attr_get res_bind field].
        destruct (dict_get "minOSVersion" e) as [m|]; cbn [truthy].
        -- destruct (truthy m); intros [= <-]; reflexivity.
        -- intros [= <-]. reflexivity.
      * intros [= <-].
        destruct top as [| | | | | |e]; try reflexivity.
        destruct e; [reflexivity | discriminate].
    + destruct dd; discriminate.
  - intros [= <-] H. rewrite (B JNull eq_refl H).
    destruct v as [| | | | |[|top l]|]; try reflexivity. discriminate.
Qed.

(** C7, as stated, fails: the first entry carries a [minOSVersion], the
    empty string, and the entry the run puts in front of it has none. *)
Lemma minOSVersion_counterexample :
  option_map (map (field "minOSVersion"))
    (written_versions
       (run (example_args None) [] a_date (Document blank_min_manifest)))
  = Some [ None; Some (JStr "") ].
Proof. reflexivity. Qed.

(** C7, amended: the new entry has the [minOSVersion] of the previous
    first entry of [apps[0].versions] when there is such an entry and its
    [minOSVersion] is a value Python takes for true (for a string: not
    empty); in every other case the new entry has no [minOSVersion].  This
    holds of every entry lines 81-96 build, and of the entry a run leaves
    first in the written file. *)
Theorem minOSVersion_carried args env now data app :
  app0 data = Some app ->
  (forall prev dl n release loc new,
      prev_of app = Val prev ->
      new_version_obj_of prev dl n release now loc = Val new ->
      field "minOSVersion" new = carried_minOSVersion app)
  /\ (file_writes (run args env now (Document data)) = 1%nat ->
      exists new vs',
        written_versions (run args env now (Document data))
        = Some (new :: vs')
        /\ field "minOSVersion" new = carried_minOSVersion app).
Proof.
  intros Happ. split.
  - intros prev dl n release loc new. apply new_entry_minOSVersion.
  - intros W.
    destruct (run_writes_inv _ _ _ _ W)
      as (dd & app1 & rest & r & n & app' & [= ->] & Happs & Hr & Hne & Hn
          & Hup & ->).
    cbn [app0] in Happ. rewrite Happs in Happ. injection Happ as ->.
    unfold written_versions. cbn [disk_after app0].
    rewrite dict_get_set_same.
    assert (Hshape : app_shape_ok app = true).
    { apply (update_app_val_iff r (catbox_of args env)
               (release_notes_of args env) n now). eauto. }
    apply app_shape_ok_cases in Hshape.
    destruct Hshape as (a & -> & [Hno|(e & vs & Hvs)]).
    + destruct (update_app_fresh r (catbox_of args env)
                  (release_notes_of args env) n now a Hno)
        as (new & Hnew & Hup').
      rewrite Hup' in Hup. injection Hup as <-.
      rewrite versions_of_set. exists new, []. split; [reflexivity|].
      exact (new_entry_minOSVersion _ _ _ _ _ _ _ _ (prev_of_none a Hno) Hnew).
    + destruct (update_app_top r (catbox_of args env)
                  (release_notes_of args env) n now a e vs Hvs)
        as (new & Hnew & Hup').
      rewrite Hup' in Hup. injection Hup as <-.
      rewrite versions_of_set.
      assert (M : field "minOSVersion" new = carried_minOSVersion (JDict a))
        by exact (new_entry_minOSVersion _ _ _ _ _ _ _ _
                    (prev_of_top a _ _ Hvs) Hnew).
      destruct (py_ne _ _); eauto.
Qed.

(** ** The rest of the document *)

Lemma store_app0_frame dd app rest app' :
  dict_get "apps" dd = Some (JList (app :: rest)) ->
  let data' := JDict (dict_set "apps" (JList (app' :: rest)) dd) in
  (forall k, k <> "apps" -> field k data' = field k (JDict dd))
  /\ root_keys data' = root_keys (JDict dd)
  /\ other_apps data' = other_apps (JDict dd).
Proof.
  intros H. cbn. split; [|split].
  - intros k N. apply dict_get_set_other. congruence.
  - f_equal. exact (dict_keys_set_present _ _ _ _ H).
  - unfold other_apps. cbn [field].
    now rewrite dict_get_set_same, H.
Qed.

(** C8: a run changes nothing of the document but [apps[0]]: in the file
    it leaves, every field of the root other than [apps] and every app
    after the first are as they were loaded, and the root has the same
    keys in the same order.  And it reads nothing else: on two manifests
    with the same first app, the runs end alike and leave the same first
    app. *)
Theorem only_first_app_touched args env now :
  (forall data data',
      disk_after (run args env now (Document data)) = Document data' ->
      (forall k, k <> "apps" -> field k data' = field k data)
      /\ root_keys data' = root_keys data
      /\ other_apps data' = other_apps data)
  /\ (forall d1 d2 app rest1 rest2,
         dict_get "apps" d1 = Some (JList (app :: rest1)) ->
         dict_get "apps" d2 = Some (JList (app :: rest2)) ->
         exit_code (run args env now (Document (JDict d1)))
         = exit_code (run args env now (Document (JDict d2)))
         /\ printed (run args env now (Document (JDict d1)))
            = printed (run args env now (Document (JDict d2)))
         /\ traceback (run args env now (Document (JDict d1)))
            = traceback (run args env now (Document (JDict d2)))
         /\ file_writes (run args env now (Document (JDict d1)))
            = file_writes (run args env now (Document (JDict d2)))
         /\ app0_after (run args env now (Document (JDict d1)))
            = app0_after (run args env now (Document (JDict d2)))).
Proof.
  split.
  - intros data data' H.
    destruct (run_writes_at_most_once args env now (Document data)) as [W|W].
    + rewrite run_no_write in H by (rewrite W; discriminate).
      injection H as <-. repeat split.
    + destruct (run_writes_inv _ _ _ _ W)
        as (dd & app & rest & r & n & app' & [= ->] & Happs & _ & _ & _ & _
            & E).
      rewrite E in H. cbn [disk_after] in H. injection H as <-.
      exact (store_app0_frame dd app rest app' Happs).
  - intros d1 d2 app rest1 rest2 H1 H2.
    rewrite !run_eq. cbn [attr_get]. rewrite H1, H2.
    destruct (truthy_str (release_of args env));
      [|unfold app0_after; cbn; rewrite H1, H2; repeat split].
    cbn [negb py_or truthy subscript0].
    destruct (size args) as [n|];
      [|destruct (new_download_of _ app); unfold app0_after; cbn;
        rewrite H1, H2; repeat split].
    destruct (update_app _ _ _ _ _ _) as [[app' [|]]|e];
      unfold app0_after; cbn; rewrite H1, H2; cbn;
      rewrite ?dict_get_set_same; repeat split.
Qed.

(** ** The dirty flag *)



(** ** The model covers every run *)

Lemma in_model_bind {A B} (x : res A) (k : A -> res B) :
  in_model x -> (forall a, x = Val a -> in_model (k a)) ->
  in_model (res_bind x k).
Proof.
  unfold in_model. destruct x as [a|e]; cbn; [|congruence].
  intros _ H. now apply H.
Qed.

Lemma in_model_val {A} (a : A) : in_model (Val a).
Proof. discriminate. Qed.

Lemma in_model_attr_get o k : in_model (attr_get o k).
Proof. destruct o; discriminate. Qed.

Lemma in_model_getitem o k : in_model (getitem o k).
Proof. destruct o; try discriminate. cbn. now destruct (dict_get k d). Qed.

Lemma in_model_subscript0 o : in_model (subscript0 o).
Proof.
  destruct o as [| | | | s |l|]; try discriminate.
  - now destruct s.
  - now destruct l.
Qed.

Lemma in_model_py_len o : in_model (py_len o).
Proof. destruct o; discriminate. Qed.

Lemma in_model_setitem o k v : in_model (setitem o k v).
Proof. destruct o; discriminate. Qed.

Lemma in_model_insert0 o v : in_model (insert0 o v).
Proof. destruct o; discriminate. Qed.

Create HintDb in_model.
#[local] Hint Resolve in_model_val in_model_attr_get in_model_getitem
  in_model_subscript0 in_model_py_len in_model_setitem in_model_insert0
  : in_model.

Ltac in_model_steps :=
  repeat first
    [ solve [auto with in_model]
    | match goal with
      | |- in_model (res_bind _ _) => apply in_model_bind; [|intros ? ?]
      | |- in_model (if ?b then _ else _) => destruct b eqn:?
      | |- in_model (let '(_, _) := ?p in _) => destruct p
      end ].

Lemma in_model_update_versions r new st :
  in_model (update_versions (Some r) new st).
Proof.
  destruct st as [app c]. unfold update_versions.
  apply in_model_bind; [auto with in_model|]. intros v Hv.
  destruct app as [| | | | | |a]; try discriminate.
  cbn [attr_get] in Hv. injection Hv as Hv.
  assert (G : getitem (JDict a) "versions" = Val v \/ v = JNull).
  { cbn. destruct (dict_get "versions" a); [left|right]; congruence. }
  destruct G as [G| ->]; [|in_model_steps].
  destruct v as [| | | | s |l|dd]; try (in_model_steps; fail);
    rewrite G; cbn [res_bind].
  - destruct b; cbn; discriminate.
  - destruct (truthy (JInt n)); cbn; discriminate.
  - destruct (truthy (JFloat f)); cbn; discriminate.
  - destruct s; cbn; discriminate.
  - destruct l as [|x l]; [cbn; discriminate|].
    cbn [truthy py_len length Nat.ltb Nat.leb res_bind subscript0].
    in_model_steps. cbn. discriminate.
  - destruct dd; cbn; discriminate.
Qed.

Lemma in_model_update_app r catbox notes n now app :
  in_model (update_app (Some r) catbox notes n now app).
Proof.
  unfold update_app, new_download_of, prev_of, new_version_obj_of,
    update_field.
  in_model_steps; apply in_model_update_versions.
Qed.

(** No run ends in [OutOfModel]: the one Python operation the value type
    cannot render is never reached. *)
Lemma main_in_model args env now d :
  traceback (run args env now d) <> Some OutOfModel.
Proof.
  rewrite run_eq.
  destruct d as [| |data]; try discriminate.
  destruct (truthy_str (release_of args env)) eqn:T; [|discriminate].
  apply truthy_str_some in T. destruct T as (r & -> & _).
  cbn [negb].
  pose proof (in_model_attr_get data "apps") as H1.
  destruct (attr_get data "apps") as [a|e]; [|cbn; congruence].
  destruct (truthy (py_or a (JList []))); [|discriminate].
  cbn [negb].
  pose proof (in_model_subscript0 (py_or a (JList []))) as H2.
  destruct (subscript0 _) as [app|e]; [|cbn; congruence].
  destruct (size args) as [n|].
  - pose proof (in_model_update_app r (catbox_of args env)
                  (release_notes_of args env) n now app) as H3.
    destruct (update_app _ _ _ _ _ _) as [[app' [|]]|e]; cbn;
      try discriminate.
    unfold in_model in H3. congruence.
  - assert (H3 : in_model (new_download_of (catbox_of args env) app))
      by (unfold new_download_of; in_model_steps).
    destruct (new_download_of _ app); cbn; [discriminate|].
    unfold in_model in H3. congruence.
Qed.

(** ** The theorems at concrete inputs *)

Lemma size_missing_outcome_witness :
  size (tag_only "1.1") = None
  /\ disk_after (run (tag_only "1.1") [] a_date (Document example_manifest))
     = Document example_manifest
  /\ file_writes (run (tag_only "1.1") [] a_date (Document example_manifest))
     = 0%nat
  /\ exit_code (run (tag_only "1.1") [] a_date (Document example_manifest))
     = 1.
Proof.
  split; [reflexivity|].
  exact (size_missing_outcome (tag_only "1.1") [] a_date
           (Document example_manifest) eq_refl).
Defined.

Lemma prepend_when_top_differs_witness :
  release_of (release_args "1.1") [] = Some "1.1"
  /\ size (release_args "1.1") = Some 999
  /\ dict_get "apps" example_root = Some (JList [JDict example_app_items])
  /\ dict_get "versions" example_app_items = Some (JList [old_entry])
  /\ dict_get "version" old_entry_items <> Some (JStr "1.1")
  /\ exists data' app' new vs',
      disk_after (run (release_args "1.1") [] a_date
                    (Document (JDict example_root))) = Document data'
      /\ app0 data' = Some app'
      /\ versions_of app' = Some vs'
      /\ length vs' = 2%nat
      /\ nth_error vs' 0 = Some new
      /\ field "version" new = Some (JStr "1.1")
      /\ forall i, nth_error vs' (S i) = nth_error [old_entry] i.
Proof.
  assert (N : "1.1" <> "") by discriminate.
  assert (D : dict_get "version" old_entry_items <> Some (JStr "1.1"))
    by discriminate.
  repeat (split; [reflexivity || exact D|]).
  exact (prepend_when_top_differs (release_args "1.1") [] a_date "1.1" 999
           eq_refl N eq_refl example_root example_app_items [] eq_refl
           old_entry_items [] eq_refl D).
Defined.

Lemma replace_when_top_equal_witness :
  release_of (release_args "1.0") [] = Some "1.0"
  /\ size (release_args "1.0") = Some 999
  /\ dict_get "apps" example_root = Some (JList [JDict example_app_items])
  /\ dict_get "versions" example_app_items = Some (JList [old_entry])
  /\ dict_get "version" old_entry_items = Some (JStr "1.0")
  /\ exists data' app' dl new vs',
      disk_after (run (release_args "1.0") [] a_date
                    (Document (JDict example_root))) = Document data'
      /\ app0 data' = Some app'
      /\ versions_of app' = Some vs'
      /\ length vs' = 1%nat
      /\ new_download_of (catbox_of (release_args "1.0") [])
           (JDict example_app_items) = Val dl
      /\ new_version_obj_of old_entry dl 999 (Some "1.0") a_date
           (new_localized_of (Some "1.0")
              (release_notes_of (release_args "1.0") [])) = Val new
      /\ nth_error vs' 0 = Some new
      /\ forall i, nth_error vs' (S i) = nth_error [old_entry] (S i).
Proof.
  assert (N : "1.0" <> "") by discriminate.
  repeat (split; [reflexivity|]).
  exact (replace_when_top_equal (release_args "1.0") [] a_date "1.0" 999
           eq_refl N eq_refl example_root example_app_items [] eq_refl
           old_entry_items [] eq_refl eq_refl).
Defined.

Lemma single_entry_when_no_versions_witness :
  release_of (release_args "1.0") [] = Some "1.0"
  /\ size (release_args "1.0") = Some 999
  /\ dict_get "apps" fresh_root = Some (JList [JDict fresh_app_items])
  /\ no_versions fresh_app_items
  /\ exists data' app' new,
      disk_after (run (release_args "1.0") [] a_date
                    (Document (JDict fresh_root))) = Document data'
      /\ app0 data' = Some app'
      /\ versions_of app' = Some [new]
      /\ field "version" new = Some (JStr "1.0").
Proof.
  assert (N : "1.0" <> "") by discriminate.
  assert (V : no_versions fresh_app_items) by (left; reflexivity).
  repeat (split; [reflexivity || exact V|]).
  exact (single_entry_when_no_versions (release_args "1.0") [] a_date "1.0"
           999 eq_refl N eq_refl fresh_root fresh_app_items [] eq_refl V).
Defined.

Lemma no_release_is_noop_witness :
  release_tag no_flags = None
  /\ dict_get "RELEASE_TAG" ([] : environ) = None
  /\ run no_flags [] a_date (Document example_manifest) =
     {| exit_code := 0;
        printed := ["RELEASE_TAG not provided; nothing to do"];
        traceback := None; file_writes := 0;
        disk_after := Document example_manifest |}.
Proof.
  repeat (split; [reflexivity|]).
  exact (no_release_is_noop no_flags [] a_date example_manifest
           eq_refl eq_refl).
Defined.

Lemma minOSVersion_carried_witness :
  app0 min_manifest = Some min_app
  /\ carried_minOSVersion min_app = Some (JStr "15.0")
  /\ (forall prev dl n release loc new,
         prev_of min_app = Val prev ->
         new_version_obj_of prev dl n release a_date loc = Val new ->
         field "minOSVersion" new = carried_minOSVersion min_app)
  /\ (file_writes (run (release_args "1.1") [] a_date (Document min_manifest))
      = 1%nat ->
      exists new vs',
        written_versions
          (run (release_args "1.1") [] a_date (Document min_manifest))
        = Some (new :: vs')
        /\ field "minOSVersion" new = carried_minOSVersion min_app).
Proof.
  repeat (split; [reflexivity|]).
  exact (minOSVersion_carried (release_args "1.1") [] a_date min_manifest
           min_app eq_refl).
Defined.

Lemma only_first_app_touched_witness :
  exists data',
    disk_after (run (release_args "1.1") [] a_date
                  (Document (JDict two_apps_root))) = Document data'
    /\ file_writes (run (release_args "1.1") [] a_date
                      (Document (JDict two_apps_root))) = 1%nat
    /\ field "name" data' = Some (JStr "Repo")
    /\ root_keys data' = Some ["name"; "apps"]
    /\ other_apps data' = Some [JDict fresh_app_items].
Proof.
  eexists. split; [reflexivity|]. split; [reflexivity|].
  destruct (only_first_app_touched (release_args "1.1") [] a_date) as [F _].
  destruct (F (JDict two_apps_root) _ eq_refl) as (K & R & O).
  assert (N : "name" <> "apps") by discriminate.
  split; [exact (K "name" N)|]. split; [exact R | exact O].
Defined.


Lemma manifest_checked_before_release_witness :
  truthy_str (release_of no_flags []) = false
  /\ exit_code (run no_flags [] a_date Missing) = 1
  /\ exit_code (run no_flags [] a_date Unparseable) <> 0
  /\ exit_code (run no_flags [] a_date (Document example_manifest)) = 0.
Proof.
  split; [reflexivity|].
  destruct (manifest_checked_before_release no_flags [] a_date) as [M H].
  split; [exact (f_equal exit_code M)|].
  split.
  - intros E. apply (H eq_refl) in E. destruct E as [data E]. discriminate E.
  - apply (H eq_refl). exists example_manifest. reflexivity.
Defined.

(** * Further properties of the script *)

(** ** The written app, in full *)

Lemma truthy_not_null v : truthy v = true -> v <> JNull.
Proof. intros H ->. discriminate. Qed.

Lemma get_or_none_some k a v :
  get_or_none k a = v -> v <> JNull -> dict_get k a = Some v.
Proof.
  unfold get_or_none. destruct (dict_get k a); congruence.
Qed.

Lemma kept_versions_fresh r a : no_versions a -> kept_versions r a = [].
Proof. unfold kept_versions. intros [H|[H|H]]; now rewrite H. Qed.

(** A run that writes, spelled out: the manifest it read, the inputs it
    resolved, the entry it built and the document it wrote. *)
Lemma run_writes_explicit args env now d :
  file_writes (run args env now d) = 1%nat ->
  exists dd a rest r n prev new,
    d = Document (JDict dd)
    /\ dict_get "apps" dd = Some (JList (JDict a :: rest))
    /\ release_of args env = Some r /\ r <> ""
    /\ size args = Some n
    /\ app_shape_ok (JDict a) = true
    /\ prev_of (JDict a) = Val prev
    /\ new_version_obj_of prev (download_for (catbox_of args env) a) n
         (Some r) now
         (new_localized_of (Some r) (release_notes_of args env)) = Val new
    /\ run args env now d =
       {| exit_code := 0; printed := ["repo.json updated"];
          traceback := None; file_writes := 1;
          disk_after :=
            Document
              (JDict
                 (dict_set "apps"
                    (JList
                       (JDict
                          (dict_set "versions"
                             (JList (new :: kept_versions r a))
                             (top_fields (Some r) now
                                (download_for (catbox_of args env) a) n a))
                        :: rest)) dd)) |}.
Proof.
  intros W.
  destruct (run_writes_inv _ _ _ _ W)
    as (dd & app & rest & r & n & app' & -> & Happs & Hr & Hne & Hn & Hup
        & E).
  assert (Hshape : app_shape_ok app = true).
  { apply (update_app_val_iff r (catbox_of args env)
             (release_notes_of args env) n now). eauto. }
  pose proof Hshape as Hs.
  apply app_shape_ok_cases in Hs.
  destruct Hs as (a & -> & [Hno|(e & vs & Hvs)]).
  - destruct (update_app_fresh r (catbox_of args env)
                (release_notes_of args env) n now a Hno)
      as (new & Hnew & Hup').
    rewrite Hup' in Hup. injection Hup as <-.
    exists dd, a, rest, r, n, JNull, new.
    rewrite (kept_versions_fresh r a Hno).
    repeat (split; [assumption || reflexivity|]).
    split; [exact (prev_of_none a Hno)|]. split; assumption.
  - destruct (update_app_top r (catbox_of args env)
                (release_notes_of args env) n now a e vs Hvs)
      as (new & Hnew & Hup').
    rewrite Hup' in Hup. injection Hup as <-.
    exists dd, a, rest, r, n, (JDict e), new.
    unfold kept_versions. rewrite Hvs.
    repeat (split; [assumption || reflexivity|]).
    split; [exact (prev_of_top a _ _ Hvs)|]. split; [assumption|].
    rewrite E. destruct (py_ne _ _); reflexivity.
Qed.

(** ** The new entry *)

Lemma new_entry_explicit app prev dl n release now loc new :
  prev_of app = Val prev ->
  new_version_obj_of prev dl n release now loc = Val new ->
  new = JDict (entry_items dl n release now loc (carried_minOSVersion app)).
Proof.
  intros Hprev Hnew.
  pose proof (new_entry_minOSVersion _ _ _ _ _ _ _ _ Hprev Hnew) as M.
  revert Hnew M. unfold new_version_obj_of.
  destruct (truthy prev).
  - destruct (attr_get prev "minOSVersion") as [m|e]; cbn [res_bind];
      [|discriminate].
    destruct (truthy m); intros [= <-]; cbn; intros <-; reflexivity.
  - intros [= <-]. cbn. intros <-. reflexivity.
Qed.

(** X2. The first entry of [versions] in the written file is the entry
    of lines 85-96 and nothing else: the six keys of the literal in their
    order, with [buildVersion] "1", the size and tag given, the clock text
    as [date], and after them the [minOSVersion] taken over, if any. *)
Theorem written_entry_is_built args env now data :
  file_writes (run args env now (Document data)) = 1%nat ->
  exists app r n dl vs',
    app0 data = Some app
    /\ release_of args env = Some r
    /\ size args = Some n
    /\ new_download_of (catbox_of args env) app = Val dl
    /\ written_versions (run args env now (Document data))
       = Some (JDict (entry_items dl n (Some r) now
                        (new_localized_of (Some r)
                           (release_notes_of args env))
                        (carried_minOSVersion app)) :: vs').
Proof.
  intros W.
  destruct (run_writes_explicit _ _ _ _ W)
    as (dd & a & rest & r & n & prev & new & [= ->] & Happs & Hr & Hne & Hn
        & Hshape & Hprev & Hnew & E).
  exists (JDict a), r, n, (download_for (catbox_of args env) a),
    (kept_versions r a).
  cbn [app0]. rewrite Happs.
  repeat (split; [assumption || reflexivity|]).
  split; [apply new_download_of_dict|].
  rewrite E. unfold written_versions. cbn [disk_after app0].
  rewrite dict_get_set_same, versions_of_set.
  now rewrite (new_entry_explicit _ _ _ _ _ _ _ _ Hprev Hnew).
Qed.

(** ** The fields of the app after a run *)

Lemma assign_get_str k s a :
  dict_get k (assign k (JStr s) a) = Some (JStr s).
Proof.
  unfold assign, py_ne.
  destruct (py_eq (get_or_none k a) (JStr s)) eqn:E; cbn [negb].
  - apply py_eq_str in E. apply get_or_none_some; [exact E | discriminate].
  - apply dict_get_set_same.
Qed.

Lemma py_eq_int_refl n : py_eq (JInt n) (JInt n) = true.
Proof. cbn. apply Z.eqb_refl. Qed.

Lemma assign_get_int k n a :
  exists v,
    dict_get k (assign k (JInt n) a) = Some v
    /\ py_eq v (JInt n) = true
    /\ (v = JInt n \/ dict_get k a = Some v).
Proof.
  unfold assign, py_ne.
  destruct (py_eq (get_or_none k a) (JInt n)) eqn:E; cbn [negb].
  - exists (get_or_none k a).
    assert (G : dict_get k a = Some (get_or_none k a)).
    { apply get_or_none_some; [reflexivity|]. intros N. rewrite N in E.
      discriminate. }
    auto.
  - exists (JInt n). rewrite dict_get_set_same.
    split; [reflexivity|]. split; [apply py_eq_int_refl | now left].
Qed.

Lemma download_for_cases catbox a :
  (exists c, catbox = Some c /\ c <> "" /\ download_for catbox a = JStr c)
  \/ (truthy_str catbox = false
      /\ exists u, dict_get "downloadURL" a = Some u /\ truthy u = true
                   /\ download_for catbox a = u)
  \/ (truthy_str catbox = false
      /\ truthy (get_or_none "downloadURL" a) = false
      /\ download_for catbox a = JStr "").
Proof.
  unfold download_for, py_or.
  destruct (truthy_str catbox) eqn:T.
  - left. apply truthy_str_some in T. destruct T as (c & -> & N). eauto.
  - right. destruct (truthy (get_or_none "downloadURL" a)) eqn:U.
    + left. split; [reflexivity|]. exists (get_or_none "downloadURL" a).
      split; [|auto].
      apply get_or_none_some; [reflexivity | now apply truthy_not_null].
    + right. auto.
Qed.

Lemma assign_get_download catbox a a' :
  dict_get "downloadURL" a' = dict_get "downloadURL" a ->
  dict_get "downloadURL" (assign "downloadURL" (download_for catbox a) a')
  = Some (download_for catbox a).
Proof.
  intros G.
  destruct (download_for_cases catbox a)
    as [(c & _ & _ & ->)|[(_ & u & Hu & _ & ->)|(_ & _ & ->)]];
    try apply assign_get_str.
  unfold assign. destruct (py_ne _ _).
  - apply dict_get_set_same.
  - congruence.
Qed.

Lemma top_fields_fields r now catbox n a :
  let top := top_fields (Some r) now (download_for catbox a) n a in
  dict_get "version" top = Some (JStr r)
  /\ dict_get "versionDate" top = Some (JStr now)
  /\ dict_get "downloadURL" top = Some (download_for catbox a)
  /\ exists v, dict_get "size" top = Some v
       /\ py_eq v (JInt n) = true
       /\ (v = JInt n \/ dict_get "size" a = Some v).
Proof.
  cbn zeta. unfold top_fields. repeat split.
  - rewrite !assign_get_other by discriminate. apply assign_get_str.
  - rewrite !assign_get_other by discriminate. apply assign_get_str.
  - rewrite assign_get_other by discriminate.
    apply assign_get_download.
    now rewrite !assign_get_other by discriminate.
  - match goal with
    | |- context [assign "size" (JInt n) ?x] =>
        destruct (assign_get_int "size" n x) as (v & G & P & C)
    end.
    exists v. split; [exact G|]. split; [exact P|].
    destruct C as [C|C]; [now left | right].
    now rewrite !assign_get_other in C by discriminate.
Qed.

(** X1. After a run that writes, the app's own [version], [versionDate]
    and [downloadURL] are the release tag, the clock text and the chosen
    URL, and they are the [version], [date] and [downloadURL] of the new
    first entry of [versions]. *)
Theorem written_app_mirrors_entry args env now data :
  file_writes (run args env now (Document data)) = 1%nat ->
  exists app app' r dl new vs',
    app0 data = Some app
    /\ release_of args env = Some r
    /\ new_download_of (catbox_of args env) app = Val dl
    /\ app0_after (run args env now (Document data)) = Some app'
    /\ versions_of app' = Some (new :: vs')
    /\ field "version" app' = Some (JStr r)
    /\ field "version" new = Some (JStr r)
    /\ field "versionDate" app' = Some (JStr now)
    /\ field "date" new = Some (JStr now)
    /\ field "downloadURL" app' = Some dl
    /\ field "downloadURL" new = Some dl.
Proof.
  intros W.
  destruct (run_writes_explicit _ _ _ _ W)
    as (dd & a & rest & r & n & prev & new & [= ->] & Happs & Hr & Hne & Hn
        & Hshape & Hprev & Hnew & E).
  destruct (top_fields_fields r now (catbox_of args env) n a)
    as (Fv & Fd & Fu & _).
  rewrite (new_entry_explicit _ _ _ _ _ _ _ _ Hprev Hnew) in E.
  eexists (JDict a), _, r, (download_for (catbox_of args env) a), _,
    (kept_versions r a).
  cbn [app0]. rewrite Happs, E. unfold app0_after.
  cbn [disk_after app0]. rewrite dict_get_set_same.
  split; [reflexivity|]. split; [exact Hr|].
  split; [apply new_download_of_dict|]. split; [reflexivity|].
  split; [apply versions_of_set|].
  cbn [field].
  rewrite !dict_get_set_other by discriminate.
  repeat split; assumption || reflexivity.
Qed.

(** X3. Which URL that is: the one given by flag or [CATBOX_URL] when it is
    not empty; otherwise the app's own [downloadURL] when it has one that
    Python takes for true; otherwise the empty string. *)
Theorem written_download_url args env now data :
  file_writes (run args env now (Document data)) = 1%nat ->
  exists app app',
    app0 data = Some app
    /\ app0_after (run args env now (Document data)) = Some app'
    /\ (forall c, catbox_of args env = Some c -> c <> "" ->
          field "downloadURL" app' = Some (JStr c))
    /\ (truthy_str (catbox_of args env) = false ->
        forall u, field "downloadURL" app = Some u -> truthy u = true ->
          field "downloadURL" app' = Some u)
    /\ (truthy_str (catbox_of args env) = false ->
        (field "downloadURL" app = None
         \/ exists u, field "downloadURL" app = Some u /\ truthy u = false) ->
        field "downloadURL" app' = Some (JStr "")).
Proof.
  intros W.
  destruct (run_writes_explicit _ _ _ _ W)
    as (dd & a & rest & r & n & prev & new & [= ->] & Happs & Hr & Hne & Hn
        & Hshape & Hprev & Hnew & E).
  destruct (top_fields_fields r now (catbox_of args env) n a)
    as (_ & _ & Fu & _).
  eexists (JDict a), _.
  cbn [app0]. rewrite Happs, E. unfold app0_after.
  cbn [disk_after app0]. rewrite dict_get_set_same.
  split; [reflexivity|]. split; [reflexivity|].
  cbn [field]. rewrite !dict_get_set_other by discriminate. rewrite Fu.
  unfold download_for, py_or, get_or_none.
  split; [|split].
  - intros c Hc N.
    assert (T : truthy_str (catbox_of args env) = true)
      by (apply truthy_str_some; eauto).
    now rewrite T, Hc.
  - intros T u Hu Tu. now rewrite T, Hu, Tu.
  - intros T [H|(u & Hu & Tu)]; rewrite T, H || rewrite T, Hu, ?Tu;
      reflexivity.
Qed.


(** X5. A run that writes leaves every other field of the app as it was:
    only [version], [versionDate], [downloadURL], [size] and [versions]
    are assigned to. *)
Theorem other_app_fields_kept args env now data :
  file_writes (run args env now (Document data)) = 1%nat ->
  exists app app',
    app0 data = Some app
    /\ app0_after (run args env now (Document data)) = Some app'
    /\ forall k, ~ In k assigned_keys -> field k app' = field k app.
Proof.
  intros W.
  destruct (run_writes_explicit _ _ _ _ W)
    as (dd & a & rest & r & n & prev & new & [= ->] & Happs & Hr & Hne & Hn
        & Hshape & Hprev & Hnew & E).
  eexists (JDict a), _.
  cbn [app0]. rewrite Happs, E. unfold app0_after.
  cbn [disk_after app0]. rewrite dict_get_set_same.
  split; [reflexivity|]. split; [reflexivity|].
  intros k Hk. cbn [field].
  assert (N : k <> "version" /\ k <> "versionDate" /\ k <> "downloadURL"
              /\ k <> "size" /\ k <> "versions").
  { unfold assigned_keys in Hk. cbn [In] in Hk.
    repeat split; intros ->; apply Hk; tauto. }
  destruct N as (N1 & N2 & N3 & N4 & N5).
  rewrite dict_get_set_other by congruence.
  now apply top_fields_get.
Qed.

(** ** The keys of the app after a run *)

Lemma dict_keys_set k v (d : list (string * json)) :
  dict_keys (dict_set k v d) = (dict_keys d ++ if_missing k d)%list.
Proof.
  unfold dict_keys, if_missing.
  induction d as [|[k0 v0] d IH]; cbn [dict_set dict_get map fst app].
  - reflexivity.
  - destruct (String.eqb_spec k0 k) as [->|N]; cbn [map fst].
    + now rewrite app_nil_r.
    + now rewrite IH.
Qed.

Lemma if_missing_set_other k k' v (d : list (string * json)) :
  k <> k' -> if_missing k' (dict_set k v d) = if_missing k' d.
Proof.
  intros N. unfold if_missing. now rewrite dict_get_set_other.
Qed.

Lemma assign_keys k new a :
  (dict_get k a = None -> py_ne JNull new = true) ->
  dict_keys (assign k new a) = (dict_keys a ++ if_missing k a)%list.
Proof.
  intros H. unfold assign, get_or_none, if_missing.
  destruct (dict_get k a) as [v|] eqn:G.
  - destruct (py_ne v new).
    + rewrite dict_keys_set. unfold if_missing. now rewrite G.
    + now rewrite app_nil_r.
  - rewrite (H eq_refl). rewrite dict_keys_set. unfold if_missing.
    now rewrite G.
Qed.

Lemma if_missing_assign_other k k' new a :
  k <> k' -> if_missing k' (assign k new a) = if_missing k' a.
Proof.
  intros N. unfold if_missing. now rewrite assign_get_other.
Qed.

Lemma download_for_not_null catbox a :
  dict_get "downloadURL" a = None ->
  py_ne JNull (download_for catbox a) = true.
Proof.
  intros G.
  destruct (download_for_cases catbox a)
    as [(c & _ & _ & ->)|[(_ & u & Hu & _)|(_ & _ & ->)]];
    try reflexivity.
  congruence.
Qed.

Lemma top_fields_keys r now catbox n a :
  dict_keys (top_fields (Some r) now (download_for catbox a) n a)
  = (dict_keys a ++ if_missing "version" a ++ if_missing "versionDate" a
     ++ if_missing "downloadURL" a ++ if_missing "size" a)%list.
Proof.
  unfold top_fields.
  rewrite assign_keys by reflexivity.
  rewrite assign_keys
    by (rewrite !assign_get_other by discriminate;
        apply download_for_not_null).
  rewrite !assign_keys by reflexivity.
  rewrite !if_missing_assign_other by discriminate.
  now rewrite <- !app_assoc.
Qed.

(** X6. The keys of the app in the written file are its keys as loaded,
    in their order, followed by those of [version], [versionDate],
    [downloadURL], [size] and [versions] it did not have, in this order:
    a run neither moves nor drops a key. *)
Theorem written_app_keys args env now data :
  file_writes (run args env now (Document data)) = 1%nat ->
  exists a app',
    app0 data = Some (JDict a)
    /\ app0_after (run args env now (Document data)) = Some app'
    /\ object_keys app'
       = Some (dict_keys a ++ if_missing "version" a
               ++ if_missing "versionDate" a ++ if_missing "downloadURL" a
               ++ if_missing "size" a ++ if_missing "versions" a)%list.
Proof.
  intros W.
  destruct (run_writes_explicit _ _ _ _ W)
    as (dd & a & rest & r & n & prev & new & [= ->] & Happs & Hr & Hne & Hn
        & Hshape & Hprev & Hnew & E).
  eexists a, _.
  cbn [app0]. rewrite Happs, E. unfold app0_after.
  cbn [disk_after app0]. rewrite dict_get_set_same.
  split; [reflexivity|]. split; [reflexivity|].
  cbn [object_keys]. rewrite dict_keys_set, top_fields_keys.
  unfold if_missing at 5. rewrite top_fields_get by discriminate.
  fold (if_missing "versions" a).
  now rewrite <- !app_assoc.
Qed.

(** ** Running again on the written file *)

Lemma py_ne_str_str r r2 : py_ne (JStr r) (JStr r2) = negb (String.eqb r r2).
Proof. reflexivity. Qed.

(** X7. The script runs on its own output.  After a run that wrote, any
    further run with a release tag and a size writes again; its list of
    versions is the new entry followed by the whole earlier list when the
    tag is another one, and by the earlier list without its first entry
    when the tag is the same: releasing a tag twice leaves one entry of
    it. *)
Theorem rerun_on_written_file args env now d args2 env2 now2 r r2 n2 :
  file_writes (run args env now d) = 1%nat ->
  release_of args env = Some r ->
  release_of args2 env2 = Some r2 -> r2 <> "" ->
  size args2 = Some n2 ->
  exists new1 new2 vs,
    written_versions (run args env now d) = Some (new1 :: vs)
    /\ file_writes (run args2 env2 now2 (disk_after (run args env now d)))
       = 1%nat
    /\ written_versions
         (run args2 env2 now2 (disk_after (run args env now d)))
       = Some (if String.eqb r r2 then new2 :: vs else new2 :: new1 :: vs).
Proof.
  intros W Hr1 Hr2 Hne2 Hn2.
  destruct (run_writes_explicit _ _ _ _ W)
    as (dd & a & rest & r' & n & prev & new & -> & Happs & Hr & Hne & Hn
        & Hshape & Hprev & Hnew & E).
  assert (r' = r) by congruence. subst r'.
  rewrite (new_entry_explicit _ _ _ _ _ _ _ _ Hprev Hnew) in E.
  rewrite E. cbn [disk_after].
  match type of E with
  | _ = {| exit_code := _; printed := _; traceback := _; file_writes := _;
           disk_after := Document (JDict (dict_set "apps"
             (JList (JDict (dict_set "versions" (JList (JDict ?e :: ?k)) ?t)
                     :: _)) _)) |} =>
      set (items := e) in *; set (kept := k) in *; set (top := t) in *
  end.
  set (a1 := dict_set "versions" (JList (JDict items :: kept)) top) in *.
  set (dd1 := dict_set "apps" (JList (JDict a1 :: rest)) dd) in *.
  assert (Happs1 : dict_get "apps" dd1 = Some (JList (JDict a1 :: rest)))
    by apply dict_get_set_same.
  assert (Hvs1 : dict_get "versions" a1 = Some (JList (JDict items :: kept)))
    by apply dict_get_set_same.
  rewrite (run_on_list args2 env2 now2 dd1 (JDict a1) rest r2 n2
             Hr2 Hne2 Hn2 Happs1).
  destruct (update_app_top r2 (catbox_of args2 env2)
              (release_notes_of args2 env2) n2 now2 a1 items kept Hvs1)
    as (new2 & _ & ->).
  exists (JDict items), new2, kept.
  unfold written_versions.
  cbn [finish disk_after file_writes store_app0 app0].
  rewrite !Happs1. cbn [app0]. rewrite dict_get_set_same.
  unfold a1 at 1. rewrite !versions_of_set.
  split; [reflexivity|]. split; [reflexivity|].
  assert (V : get_or_none "version" items = JStr r) by reflexivity.
  rewrite V, py_ne_str_str. now destruct (String.eqb r r2).
Qed.

(** X8. What a run takes over as [minOSVersion] is what the next run
    will take over: the value carried from the first entry of [versions]
    is the same before and after a run that writes. *)
Theorem carried_minOSVersion_kept args env now data :
  file_writes (run args env now (Document data)) = 1%nat ->
  exists app app',
    app0 data = Some app
    /\ app0_after (run args env now (Document data)) = Some app'
    /\ carried_minOSVersion app' = carried_minOSVersion app.
Proof.
  intros W.
  destruct (run_writes_explicit _ _ _ _ W)
    as (dd & a & rest & r & n & prev & new & [= ->] & Happs & Hr & Hne & Hn
        & Hshape & Hprev & Hnew & E).
  pose proof (new_entry_minOSVersion _ _ _ _ _ _ _ _ Hprev Hnew) as M.
  eexists (JDict a), _.
  cbn [app0]. rewrite Happs, E. unfold app0_after.
  cbn [disk_after app0]. rewrite dict_get_set_same.
  split; [reflexivity|]. split; [reflexivity|].
  unfold carried_minOSVersion at 1. rewrite versions_of_set, M.
  destruct (carried_minOSVersion (JDict a)) as [m|] eqn:C; [|reflexivity].
  assert (T : truthy m = true).
  { revert C. unfold carried_minOSVersion.
    destruct (versions_of (JDict a)) as [[|top l]|]; try discriminate.
    destruct (field "minOSVersion" top) as [m'|]; [|discriminate].
    destruct (truthy m') eqn:T'; [|discriminate]. now intros [= <-]. }
  now rewrite T.
Qed.

(** ** Flags and environment *)

Lemma str_or_agree flag e e' :
  (truthy_str flag = false -> e = e') -> str_or flag e = str_or flag e'.
Proof.
  unfold str_or. destruct (truthy_str flag); [reflexivity|]. auto.
Qed.

(** The clock text decides no branch: with another one the entry is built
    or fails alike, and so does the update of [versions], which looks at
    [versions] and the release tag alone. *)
Lemma new_version_obj_of_ending prev dl n release now now' loc loc' :
  same_ending (new_version_obj_of prev dl n release now loc)
    (new_version_obj_of prev dl n release now' loc').
Proof.
  unfold new_version_obj_of.
  destruct (truthy prev); [|exact I].
  destruct (attr_get prev "minOSVersion") as [m|e]; cbn [res_bind];
    [|reflexivity].
  destruct (truthy m); exact I.
Qed.

Lemma update_versions_ending release new new' a a' c c' :
  dict_get "versions" a = dict_get "versions" a' ->
  same_ending (update_versions release new (JDict a, c))
    (update_versions release new' (JDict a', c')).
Proof.
  intros H. unfold update_versions. cbn [attr_get getitem res_bind].
  rewrite <- H.
  destruct (dict_get "versions" a) as [v|]; [|exact I].
  destruct v as [| b | z | f | s |[|x l]|dd]; try exact I;
    cbn [truthy py_len length Nat.ltb Nat.leb res_bind subscript0].
  - destruct b; cbn; [reflexivity|].
    destruct (py_ne JNull (of_opt release)); reflexivity.
  - destruct (negb (z =? 0)); cbn; [reflexivity|].
    destruct (py_ne JNull (of_opt release)); reflexivity.
  - destruct (float_truthy f); cbn; [reflexivity|].
    destruct (py_ne JNull (of_opt release)); reflexivity.
  - destruct s as [|ch s]; cbn.
    + destruct (py_ne JNull (of_opt release)); reflexivity.
    + reflexivity.
  - cbn. destruct (py_ne JNull (of_opt release)); cbn; [exact I|reflexivity].
  - destruct (attr_get x "version") as [top|e]; cbn [res_bind];
      [|reflexivity].
    destruct (py_ne top (of_opt release)); exact I.
  - destruct dd; cbn; [|reflexivity].
    destruct (py_ne JNull (of_opt release)); reflexivity.
Qed.

Lemma update_app_ending release catbox notes n now now' app :
  same_ending (update_app release catbox notes n now app)
    (update_app release catbox notes n now' app).
Proof.
  destruct app as [| | | | | |a];
    try (unfold update_app, prev_of;
         destruct (new_download_of catbox _); reflexivity).
  destruct (update_app_object release catbox notes n now a) as [c ->].
  destruct (update_app_object release catbox notes n now' a) as [c' ->].
  destruct (prev_of (JDict a)) as [prev|e]; cbn [res_bind]; [|reflexivity].
  pose proof (new_version_obj_of_ending prev (download_for catbox a) n
                release now now' (new_localized_of release notes)
                (new_localized_of release notes)) as E.
  destruct (new_version_obj_of _ _ _ _ now _) as [new|e],
           (new_version_obj_of _ _ _ _ now' _) as [new'|e'];
    cbn [res_bind]; try contradiction; [|exact E].
  apply update_versions_ending.
  now rewrite !top_fields_get by discriminate.
Qed.

Lemma run_clock_free args env now now' d :
  exit_code (run args env now d) = exit_code (run args env now' d)
  /\ printed (run args env now d) = printed (run args env now' d)
  /\ traceback (run args env now d) = traceback (run args env now' d)
  /\ file_writes (run args env now d) = file_writes (run args env now' d).
Proof.
  rewrite !run_eq.
  destruct d as [| |data]; try solve [repeat split].
  destruct (truthy_str (release_of args env)); cbn [negb];
    [|solve [repeat split]].
  destruct (attr_get data "apps") as [a|e]; [|solve [repeat split]].
  destruct (truthy (py_or a (JList []))); cbn [negb];
    [|solve [repeat split]].
  destruct (subscript0 _) as [app|e]; [|solve [repeat split]].
  destruct (size args) as [n|]; [|solve [repeat split]].
  pose proof (update_app_ending (release_of args env) (catbox_of args env)
                (release_notes_of args env) n now now' app) as E.
  destruct (update_app _ _ _ _ now app) as [[app1 c1]|e1] eqn:E1,
           (update_app _ _ _ _ now' app) as [[app2 c2]|e2] eqn:E2;
    cbn in E; try contradiction.
  - apply update_app_changed in E1, E2. subst. cbn. repeat split.
  - subst. cbn. repeat split.
Qed.

(** X9. Of the environment, [main] itself reads [RELEASE_TAG],
    [CATBOX_URL] and [RELEASE_NOTES] alone (lines 33-35; the size has no
    variable), each only when its flag is absent or empty.  So two
    environments that agree there give the same run for the same clock
    text; and whatever the clock text of line 70, which the local time
    zone shapes, they give the same exit status, output, exception and
    number of writes. *)
Theorem environment_only_behind_flags args env env' now now' d :
  (truthy_str (release_tag args) = false ->
   dict_get "RELEASE_TAG" env = dict_get "RELEASE_TAG" env') ->
  (truthy_str (catbox_url args) = false ->
   dict_get "CATBOX_URL" env = dict_get "CATBOX_URL" env') ->
  (truthy_str (release_notes args) = false ->
   dict_get "RELEASE_NOTES" env = dict_get "RELEASE_NOTES" env') ->
  run args env now d = run args env' now d
  /\ exit_code (run args env now d) = exit_code (run args env' now' d)
  /\ printed (run args env now d) = printed (run args env' now' d)
  /\ traceback (run args env now d) = traceback (run args env' now' d)
  /\ file_writes (run args env now d) = file_writes (run args env' now' d).
Proof.
  intros H1 H2 H3.
  assert (E : run args env now d = run args env' now d).
  { rewrite !run_eq.
    unfold release_of, catbox_of, release_notes_of.
    rewrite (str_or_agree _ _ _ H1), (str_or_agree _ _ _ H2),
      (str_or_agree _ _ _ H3).
    reflexivity. }
  split; [exact E|]. rewrite E. apply run_clock_free.
Qed.

(** ** Runs that do not write *)

(** X10. Without apps there is nothing to update: when the root object
    has no [apps], or has one that Python takes for false (null, an empty
    list, ...), a run with a release tag prints "No apps array found in
    repo.json" and ends with status 1 without writing, whether a size was
    given or not. *)
Theorem no_apps_fails args env now dd :
  truthy_str (release_of args env) = true ->
  (dict_get "apps" dd = None
   \/ exists v, dict_get "apps" dd = Some v /\ truthy v = false) ->
  run args env now (Document (JDict dd)) =
  {| exit_code := 1; printed := ["No apps array found in repo.json"];
     traceback := None; file_writes := 0;
     disk_after := Document (JDict dd) |}.
Proof.
  intros T H. rewrite run_eq, T. cbn [negb attr_get].
  destruct H as [H|(v & H & F)]; rewrite H; unfold py_or; [|rewrite F];
    reflexivity.
Qed.

Lemma well_shaped_cases data :
  well_shaped data = true <->
  exists dd app rest,
    data = JDict dd
    /\ dict_get "apps" dd = Some (JList (app :: rest))
    /\ app_shape_ok app = true.
Proof.
  unfold well_shaped, app0. split.
  - destruct data as [| | | | | |dd]; try discriminate.
    destruct (dict_get "apps" dd) as [[| | | | |[|app rest]|]|] eqn:G;
      try discriminate.
    intros H. exists dd, app, rest. auto.
  - intros (dd & app & rest & -> & G & H). now rewrite G.
Qed.

Lemma run_writes_iff args env now d :
  file_writes (run args env now d) = 1%nat <->
  exists data, d = Document data
    /\ truthy_str (release_of args env) = true
    /\ size args <> None /\ well_shaped data = true.
Proof.
  split.
  - intros W.
    destruct (run_writes_explicit _ _ _ _ W)
      as (dd & a & rest & r & n & prev & new & -> & Happs & Hr & Hne & Hn
          & Hshape & _).
    exists (JDict dd). split; [reflexivity|].
    split; [apply truthy_str_some; eauto|].
    split; [congruence|].
    apply well_shaped_cases. eauto 6.
  - intros (data & -> & T & Hn & S).
    apply truthy_str_some in T. destruct T as (r & Hr & Hne).
    destruct (size args) as [n|] eqn:En; [|congruence].
    apply well_shaped_cases in S.
    destruct S as (dd & app & rest & -> & Happs & S).
    rewrite (run_on_list _ _ _ _ _ _ _ _ Hr Hne En Happs).
    apply (update_app_val_iff r (catbox_of args env)
             (release_notes_of args env) n now) in S.
    destruct S as [[app' c] S]. rewrite S.
    apply update_app_changed in S. now subst c.
Qed.

Lemma exit_code_zero_iff args env now d :
  exit_code (run args env now d) = 0 <->
  file_writes (run args env now d) = 1%nat
  \/ exists data, d = Document data
       /\ truthy_str (release_of args env) = false.
Proof.
  rewrite run_eq.
  assert (X : forall (P : Prop) o,
             exit_code o = 1 -> file_writes o = 0%nat -> ~ P ->
             (exit_code o = 0 <-> file_writes o = 1%nat \/ P)).
  { intros P o -> -> N. split; [discriminate | intros [[=]|H]; tauto]. }
  destruct d as [| |data];
    try (apply X; [reflexivity | reflexivity | intros (? & [=] & _)]).
  destruct (truthy_str (release_of args env)); cbn [negb].
  2:{ split; [intros _; right; eauto | reflexivity]. }
  assert (N : ~ exists data0, Document data = Document data0 /\ true = false)
    by (intros (? & _ & [=])).
  destruct (attr_get data "apps") as [a|e]; [|now apply X].
  destruct (truthy (py_or a (JList []))); cbn [negb]; [|now apply X].
  destruct (subscript0 _) as [app|e]; [|now apply X].
  destruct (size args) as [n|];
    [|destruct (new_download_of _ app); now apply X].
  destruct (update_app _ _ _ _ _ _) as [[app' c]|e] eqn:E; [|now apply X].
  apply update_app_changed in E. subst c. cbn. tauto.
Qed.

(** X11. When [main] succeeds, for a command line [parse_args] has
    accepted and taking the write of lines 133-134 to succeed when it is
    attempted.  [main] attempts the write exactly when the manifest file
    exists and parses, a release tag and a size are given and the manifest
    has the shape the statements rely on; and it returns 0 exactly then,
    or when the file exists and parses and no release tag is given (the
    no-op). *)
Theorem run_succeeds_iff args env now d :
  (exit_code (run args env now d) = 0 <->
   exists data, d = Document data
     /\ (truthy_str (release_of args env) = false
         \/ (size args <> None /\ well_shaped data = true)))
  /\ (file_writes (run args env now d) = 1%nat <->
      exists data, d = Document data
        /\ truthy_str (release_of args env) = true
        /\ size args <> None /\ well_shaped data = true).
Proof.
  split; [|apply run_writes_iff].
  rewrite exit_code_zero_iff, run_writes_iff. split.
  - intros [(data & -> & _ & H)|(data & -> & H)]; eauto.
  - intros (data & -> & [H|H]); [right; eauto|].
    destruct (truthy_str (release_of args env)) eqn:T.
    + left. exists data. tauto.
    + right. eauto.
Qed.

(** X12. How [main] can end, for a command line [parse_args] has
    accepted and taking the write of lines 133-134 to succeed when it is
    attempted.  The status is 0 or 1; at most one line is printed; the
    write is attempted at most once, and exactly in the runs that print
    "repo.json updated"; a run that an exception of the statements before
    the write ends has status 1 and has printed nothing; and a run of
    status 1 has not opened the file for writing, so the file is as it
    was. *)
Theorem run_outcomes args env now d :
  (exit_code (run args env now d) = 0 \/ exit_code (run args env now d) = 1)
  /\ (length (printed (run args env now d)) <= 1)%nat
  /\ (file_writes (run args env now d) = 0%nat
      \/ file_writes (run args env now d) = 1%nat)
  /\ (file_writes (run args env now d) = 1%nat <->
      printed (run args env now d) = ["repo.json updated"])
  /\ (traceback (run args env now d) <> None ->
      exit_code (run args env now d) = 1
      /\ printed (run args env now d) = [])
  /\ (exit_code (run args env now d) = 1 ->
      file_writes (run args env now d) = 0%nat
      /\ disk_after (run args env now d) = d).
Proof.
  rewrite run_eq.
  assert (X : forall o,
             exit_code o = 1 -> file_writes o = 0%nat -> disk_after o = d ->
             (length (printed o) <= 1)%nat ->
             printed o <> ["repo.json updated"] ->
             (traceback o <> None -> printed o = []) ->
             (exit_code o = 0 \/ exit_code o = 1)
             /\ (length (printed o) <= 1)%nat
             /\ (file_writes o = 0%nat \/ file_writes o = 1%nat)
             /\ (file_writes o = 1%nat <-> printed o = ["repo.json updated"])
             /\ (traceback o <> None -> exit_code o = 1 /\ printed o = [])
             /\ (exit_code o = 1 -> file_writes o = 0%nat /\ disk_after o = d)).
  { intros o E W D L P T. rewrite E, W.
    repeat split; auto; try discriminate; tauto. }
  assert (C : forall e, _) by
    (exact (fun e => X (crash e [] d) eq_refl eq_refl eq_refl (le_S _ _ (le_n _))
                       ltac:(discriminate) (fun _ => eq_refl))).
  destruct d as [| |data]; try apply C;
    try (apply X; try reflexivity; cbn; auto; try discriminate; congruence).
  destruct (truthy_str (release_of args env)); cbn [negb].
  2:{ cbn. repeat split; auto; try discriminate; congruence. }
  destruct (attr_get data "apps") as [a|e]; [|apply C].
  destruct (truthy (py_or a (JList []))); cbn [negb];
    [|apply X; try reflexivity; cbn; auto; try discriminate; congruence].
  destruct (subscript0 _) as [app|e]; [|apply C].
  destruct (size args) as [n|];
    [|destruct (new_download_of _ app); apply C].
  destruct (update_app _ _ _ _ _ _) as [[app' c]|e] eqn:E; [|apply C].
  apply update_app_changed in E. subst c. cbn.
  repeat split; auto; try discriminate; congruence.
Qed.

(** ** The description of the new entry *)

Lemma list_ascii_of_string_app s t :
  list_ascii_of_string (s ++ t)
  = (list_ascii_of_string s ++ list_ascii_of_string t)%list.
Proof. induction s as [|c s IH]; cbn; [reflexivity | now rewrite IH]. Qed.

Lemma string_of_list_ascii_app l m :
  string_of_list_ascii (l ++ m)
  = string_of_list_ascii l ++ string_of_list_ascii m.
Proof. induction l as [|c l IH]; cbn; [reflexivity | now rewrite IH]. Qed.

Lemma dropwhile_app_stop {A} (p : A -> bool) x c y :
  p c = false ->
  dropwhile p (x ++ c :: y) = (dropwhile p x ++ c :: y)%list.
Proof.
  intros H. induction x as [|h x IH]; cbn.
  - now rewrite H.
  - destruct (p h); [exact IH | reflexivity].
Qed.

Lemma dropwhile_all {A} (p : A -> bool) l :
  forallb p l = true -> dropwhile p l = [].
Proof.
  induction l as [|h l IH]; cbn; [reflexivity|].
  destruct (p h); [exact IH | discriminate].
Qed.

Lemma forallb_rev {A} (p : A -> bool) l :
  forallb p (rev l) = forallb p l.
Proof.
  induction l as [|h l IH]; cbn; [reflexivity|].
  rewrite forallb_app, IH. cbn. rewrite andb_true_r. apply andb_comm.
Qed.

(** Trimming on the right stops at the last character of a text that
    does not end in white space. *)
Lemma rstrip_after s c t :
  py_isspace c = false ->
  rstrip (s ++ String c "" ++ t) = s ++ String c "" ++ rstrip t.
Proof.
  intros H. unfold rstrip.
  rewrite !list_ascii_of_string_app. cbn [list_ascii_of_string app].
  rewrite rev_app_distr. cbn [rev]. rewrite <- app_assoc. cbn [app].
  rewrite (dropwhile_app_stop _ _ _ _ H).
  rewrite rev_app_distr. cbn [rev]. rewrite rev_involutive.
  rewrite <- app_assoc. cbn [app].
  rewrite string_of_list_ascii_app. cbn [string_of_list_ascii].
  rewrite string_of_list_ascii_of_string.
  reflexivity.
Qed.

Lemma rstrip_nil : rstrip "" = "".
Proof. reflexivity. Qed.

Lemma string_app_assoc (s t u : string) : (s ++ t) ++ u = s ++ t ++ u.
Proof. induction s as [|c s IH]; cbn; [reflexivity | now rewrite IH]. Qed.

Lemma header_of_app r u :
  header_of r ++ u
  = ("This version includes the ApolloICA tweak version: " ++ r
     ++ " patched with Liquid Glass support") ++ String "." "" ++ u.
Proof.
  unfold header_of. rewrite !string_app_assoc. reflexivity.
Qed.

Lemma strip_header r t :
  strip (header_of r ++ t) = header_of r ++ rstrip t.
Proof.
  assert (F : strip (header_of r ++ t) = rstrip (header_of r ++ t))
    by reflexivity.
  rewrite F, !header_of_app. now apply rstrip_after.
Qed.

Lemma string_app_nil_r (s : string) : s ++ "" = s.
Proof. induction s as [|c s IH]; cbn; [reflexivity | now rewrite IH]. Qed.

Lemma rstrip_all_space t :
  forallb py_isspace (list_ascii_of_string t) = true -> rstrip t = "".
Proof.
  intros H. unfold rstrip.
  rewrite dropwhile_all; [reflexivity|]. now rewrite forallb_rev.
Qed.

(** X13. The description of the new entry always starts with the whole
    header sentence of the release tag.  Without release notes (absent or
    empty) it is the header alone.  With notes it is the header, a blank
    line and the notes, trimmed on the right only: white space at the
    start of the notes stays, and notes of white space alone vanish
    together with the blank line. *)
Theorem description_structure r notes :
  (truthy_str notes = false -> new_localized_of (Some r) notes = header_of r)
  /\ (forall t, notes = Some t -> t <> "" ->
        new_localized_of (Some r) notes
        = header_of r ++ rstrip (nl ++ nl ++ t))
  /\ (forall t, notes = Some t ->
        forallb py_isspace (list_ascii_of_string t) = true ->
        new_localized_of (Some r) notes = header_of r).
Proof.
  assert (E : new_localized_of (Some r) notes
              = if truthy_str notes
                then strip (header_of r ++ nl ++ nl ++ format_str notes)
                else strip (header_of r ++ "")).
  { unfold new_localized_of. destruct (truthy_str notes).
    - cbn [join String.concat format_str]. fold (header_of r).
      now rewrite !string_app_assoc.
    - cbn [join String.concat format_str]. fold (header_of r).
      now rewrite string_app_nil_r. }
  assert (H0 : strip (header_of r ++ "") = header_of r).
  { rewrite strip_header, rstrip_nil. apply string_app_nil_r. }
  rewrite E. split; [|split].
  - intros ->. exact H0.
  - intros t -> N.
    assert (T : truthy_str (Some t) = true)
      by (apply truthy_str_some; eauto).
    rewrite T. cbn [format_str]. apply strip_header.
  - intros t -> A. destruct (truthy_str (Some t)); [|exact H0].
    cbn [format_str]. rewrite strip_header.
    rewrite rstrip_all_space; [apply string_app_nil_r|].
    exact A.
Qed.

(** ** The further properties at concrete inputs *)

Lemma written_app_mirrors_entry_witness :
  file_writes
    (run (release_args "1.1") [] a_date (Document example_manifest))
  = 1%nat
  /\ (exists app app' r dl new vs',
    app0 example_manifest = Some app
    /\ release_of (release_args "1.1") [] = Some r
    /\ new_download_of (catbox_of (release_args "1.1") []) app = Val dl
    /\ app0_after
         (run (release_args "1.1") [] a_date (Document example_manifest))
       = Some app'
    /\ versions_of app' = Some (new :: vs')
    /\ field "version" app' = Some (JStr r)
    /\ field "version" new = Some (JStr r)
    /\ field "versionDate" app' = Some (JStr a_date)
    /\ field "date" new = Some (JStr a_date)
    /\ field "downloadURL" app' = Some dl
    /\ field "downloadURL" new = Some dl).
Proof.
  split; [reflexivity|].
  exact (written_app_mirrors_entry (release_args "1.1") [] a_date
           example_manifest eq_refl).
Defined.

Lemma written_entry_is_built_witness :
  file_writes
    (run (release_args "1.1") [] a_date (Document min_manifest))
  = 1%nat
  /\ (exists app r n dl vs',
    app0 min_manifest = Some app
    /\ release_of (release_args "1.1") [] = Some r
    /\ size (release_args "1.1") = Some n
    /\ new_download_of (catbox_of (release_args "1.1") []) app = Val dl
    /\ written_versions
         (run (release_args "1.1") [] a_date (Document min_manifest))
       = Some (JDict (entry_items dl n (Some r) a_date
                        (new_localized_of (Some r)
                           (release_notes_of (release_args "1.1") []))
                        (carried_minOSVersion app)) :: vs')).
Proof.
  split; [reflexivity|].
  exact (written_entry_is_built (release_args "1.1") [] a_date
           min_manifest eq_refl).
Defined.

Lemma written_download_url_witness :
  file_writes
    (run args_without_url [] a_date (Document example_manifest))
  = 1%nat
  /\ (exists app app',
    app0 example_manifest = Some app
    /\ app0_after
         (run args_without_url [] a_date (Document example_manifest))
       = Some app'
    /\ (forall c, catbox_of args_without_url [] = Some c -> c <> "" ->
          field "downloadURL" app' = Some (JStr c))
    /\ (truthy_str (catbox_of args_without_url []) = false ->
        forall u, field "downloadURL" app = Some u -> truthy u = true ->
          field "downloadURL" app' = Some u)
    /\ (truthy_str (catbox_of args_without_url []) = false ->
        (field "downloadURL" app = None
         \/ exists u, field "downloadURL" app = Some u /\ truthy u = false) ->
        field "downloadURL" app' = Some (JStr ""))).
Proof.
  split; [reflexivity|].
  exact (written_download_url args_without_url [] a_date
           example_manifest eq_refl).
Defined.


Lemma other_app_fields_kept_witness :
  file_writes
    (run (release_args "1.1") [] a_date (Document float_size_manifest))
  = 1%nat
  /\ (exists app app',
    app0 float_size_manifest = Some app
    /\ app0_after
         (run (release_args "1.1") [] a_date (Document float_size_manifest))
       = Some app'
    /\ forall k, ~ In k assigned_keys -> field k app' = field k app).
Proof.
  split; [reflexivity|].
  exact (other_app_fields_kept (release_args "1.1") [] a_date
           float_size_manifest eq_refl).
Defined.

Lemma written_app_keys_witness :
  file_writes
    (run (release_args "1.1") [] a_date (Document float_size_manifest))
  = 1%nat
  /\ (exists a app',
    app0 float_size_manifest = Some (JDict a)
    /\ app0_after
         (run (release_args "1.1") [] a_date (Document float_size_manifest))
       = Some app'
    /\ object_keys app'
       = Some (dict_keys a ++ if_missing "version" a
               ++ if_missing "versionDate" a ++ if_missing "downloadURL" a
               ++ if_missing "size" a ++ if_missing "versions" a)%list).
Proof.
  split; [reflexivity|].
  exact (written_app_keys (release_args "1.1") [] a_date
           float_size_manifest eq_refl).
Defined.

Lemma carried_minOSVersion_kept_witness :
  file_writes
    (run (release_args "1.1") [] a_date (Document min_manifest))
  = 1%nat
  /\ (exists app app',
    app0 min_manifest = Some app
    /\ app0_after
         (run (release_args "1.1") [] a_date (Document min_manifest))
       = Some app'
    /\ carried_minOSVersion app' = carried_minOSVersion app).
Proof.
  split; [reflexivity|].
  exact (carried_minOSVersion_kept (release_args "1.1") [] a_date
           min_manifest eq_refl).
Defined.

Lemma rerun_on_written_file_witness :
  file_writes (run (release_args "1.1") [] a_date (Document example_manifest))
  = 1%nat
  /\ release_of (release_args "1.1") [] = Some "1.1"
  /\ release_of args_without_url other_env = Some "1.1"
  /\ size args_without_url = Some 999
  /\ exists new1 new2 vs,
      written_versions
        (run (release_args "1.1") [] a_date (Document example_manifest))
      = Some (new1 :: vs)
      /\ file_writes
           (run args_without_url other_env a_date
              (disk_after
                 (run (release_args "1.1") [] a_date
                    (Document example_manifest)))) = 1%nat
      /\ written_versions
           (run args_without_url other_env a_date
              (disk_after
                 (run (release_args "1.1") [] a_date
                    (Document example_manifest))))
         = Some (if String.eqb "1.1" "1.1" then new2 :: vs
                 else new2 :: new1 :: vs).
Proof.
  assert (N : "1.1" <> "") by discriminate.
  do 4 (split; [reflexivity|]).
  exact (rerun_on_written_file (release_args "1.1") [] a_date
           (Document example_manifest) args_without_url other_env a_date
           "1.1" "1.1" 999 eq_refl eq_refl eq_refl N eq_refl).
Defined.

Lemma environment_only_behind_flags_witness :
  truthy_str (release_tag (release_args "1.1")) = true
  /\ truthy_str (catbox_url (release_args "1.1")) = true
  /\ dict_get "RELEASE_NOTES" ([] : environ)
     = dict_get "RELEASE_NOTES" other_env
  /\ run (release_args "1.1") [] a_date (Document example_manifest)
     = run (release_args "1.1") other_env a_date (Document example_manifest)
  /\ exit_code
       (run (release_args "1.1") [] a_date (Document example_manifest))
     = exit_code
         (run (release_args "1.1") other_env another_date
            (Document example_manifest))
  /\ printed
       (run (release_args "1.1") [] a_date (Document example_manifest))
     = printed
         (run (release_args "1.1") other_env another_date
            (Document example_manifest))
  /\ traceback
       (run (release_args "1.1") [] a_date (Document example_manifest))
     = traceback
         (run (release_args "1.1") other_env another_date
            (Document example_manifest))
  /\ file_writes
       (run (release_args "1.1") [] a_date (Document example_manifest))
     = file_writes
         (run (release_args "1.1") other_env another_date
            (Document example_manifest)).
Proof.
  do 3 (split; [reflexivity|]).
  refine (environment_only_behind_flags (release_args "1.1") [] other_env
            a_date another_date (Document example_manifest) _ _ _).
  - intros H. discriminate H.
  - intros H. discriminate H.
  - intros _. reflexivity.
Defined.

Lemma no_apps_fails_witness :
  truthy_str (release_of (tag_only "1.1") []) = true
  /\ dict_get "apps" no_apps_root = Some (JList [])
  /\ truthy (JList []) = false
  /\ run (tag_only "1.1") [] a_date (Document (JDict no_apps_root)) =
     {| exit_code := 1; printed := ["No apps array found in repo.json"];
        traceback := None; file_writes := 0;
        disk_after := Document (JDict no_apps_root) |}.
Proof.
  do 3 (split; [reflexivity|]).
  refine (no_apps_fails (tag_only "1.1") [] a_date no_apps_root eq_refl _).
  right. exists (JList []). split; reflexivity.
Defined.
